(** * Lifecycle controller of the functions emulator CLI

    A shallow embedding of [src/cli/controller.js]: the [Controller] class that
    spawns the emulator as a detached child process, polls a TCP probe until it
    is up (or down), relays HTTP actions to it and tears it down.

    Layout:
    - [JS]       the fragment of JavaScript values and coercions the controller
                 relies on (truthiness, [||], [===], number arithmetic with NaN);
    - [Platform] the collaborators outside the controller (child processes,
                 sockets, the HTTP client, the persisted stores) and the
                 observable trace of effects;
    - [Controller] the methods of the class, one definition per method;
    - [Reference] an executable runtime (number printing and reading, JSON
                 reader) and [Scenario] concrete collaborators and inputs;
    - the vocabulary of the properties, then the properties of the methods
      and runs of the controller on the scenarios.

    Numbers are IEEE doubles: the result of an arithmetic operation is the
    exact result rounded to the nearest double.  A promise is observed after
    a bounded number of timer expirations ([fuel]): a poll that has not
    settled by then is [Pending]. *)

From Stdlib Require Import Ascii String QArith Lqa.
From stdpp Require Import gmap strings list fin_maps.

Local Open Scope string_scope.
Set Warnings "-register-all".

(** ** JavaScript values *)

Module JS.

(** Numbers are the IEEE doubles of the language: NaN, the two infinities and
    the finite doubles, each held as the rational it denotes; the operations
    below return doubles only.  The two zeros are one value: the controller
    never divides by a variable and never prints a counter, so the sign of a
    zero is not observable in it. *)
Inductive number : Type :=
| NaN
| PInf
| NInf
| Fin (q : Q).

(** The double nearest to a positive rational [q], ties to the even
    significand: with [2^e <= q < 2^(e+1)] the result is the multiple of
    [2^p] nearest to [q], for [p = max (e - 52) (-1074)] (53 significant
    bits; the subnormal doubles are the multiples of [2^-1074]); what rounds
    to [2^1024] or beyond is [Infinity]. *)
Definition nearest_positive (q : Q) : number :=
  let n := Qnum q in
  let d := Z.pos (Qden q) in
  let e0 := (Z.log2 n - Z.log2 d)%Z in
  let below := if (0 <=? e0)%Z then (n <? d * 2 ^ e0)%Z else (n * 2 ^ (- e0) <? d)%Z in
  let e := if below then (e0 - 1)%Z else e0 in
  if (1024 <=? e)%Z then PInf else
  let p := Z.max (e - 52) (-1074) in
  let sn := if (p <=? 0)%Z then (n * 2 ^ (- p))%Z else n in
  let sd := if (p <=? 0)%Z then d else (d * 2 ^ p)%Z in
  let fl := (sn / sd)%Z in
  let twice := (2 * (sn mod sd))%Z in
  let m := if (twice <? sd)%Z then fl
           else if (sd <? twice)%Z then (fl + 1)%Z
           else if Z.even fl then fl else (fl + 1)%Z in
  if (e =? 1023)%Z && (2 ^ 53 <=? m)%Z then PInf
  else if (p <=? 0)%Z then Fin (Qred (m # Z.to_pos (2 ^ (- p))))
  else Fin (inject_Z (m * 2 ^ p)).

(** [- a] *)
Definition neg (a : number) : number :=
  match a with
  | NaN => NaN
  | PInf => NInf
  | NInf => PInf
  | Fin q => Fin (- q)
  end.

(** The double that an arithmetic operation returns for the exact result
    [q]: round to nearest, ties to even, symmetric around zero. *)
Definition round64 (q : Q) : number :=
  let r := Qred q in
  match (Qnum r ?= 0)%Z with
  | Gt => nearest_positive r
  | Lt => neg (nearest_positive (- r))
  | Eq => Fin 0
  end.

Definition num_of_Z (z : Z) : number := round64 (inject_Z z).

(** [a - b] *)
Definition sub (a b : number) : number :=
  match a, b with
  | NaN, _ | _, NaN => NaN
  | PInf, PInf | NInf, NInf => NaN
  | PInf, _ => PInf
  | NInf, _ => NInf
  | Fin _, PInf => NInf
  | Fin _, NInf => PInf
  | Fin x, Fin y => round64 (x - y)
  end.

(** Sign of a rational as a comparison with zero. *)
Definition sgn (q : Q) : comparison := (0 ?= q)%Q.

(** [a / b] *)
Definition div (a b : number) : number :=
  match a, b with
  | NaN, _ | _, NaN => NaN
  | (PInf | NInf), (PInf | NInf) => NaN
  | PInf, Fin y => match sgn y with Gt => NInf | _ => PInf end
  | NInf, Fin y => match sgn y with Gt => PInf | _ => NInf end
  | Fin _, (PInf | NInf) => Fin 0
  | Fin x, Fin y =>
      match sgn y with
      | Eq => match sgn x with Eq => NaN | Lt => PInf | Gt => NInf end
      | _ => round64 (x / y)
      end
  end.

(** [a <= b]: false as soon as one side is NaN. *)
Definition leb (a b : number) : bool :=
  match a, b with
  | NaN, _ | _, NaN => false
  | NInf, _ => true
  | _, PInf => true
  | PInf, _ => false
  | Fin _, NInf => false
  | Fin x, Fin y => Qle_bool x y
  end.

(** [a >= b] *)
Definition geb (a b : number) : bool := leb b a.

(** [a === b] on numbers: NaN differs from itself. *)
Definition num_eqb (a b : number) : bool :=
  match a, b with
  | PInf, PInf | NInf, NInf => true
  | Fin x, Fin y => Qeq_bool x y
  | _, _ => false
  end.

(** Values: the primitives, arrays and plain objects (JSON documents plus
    [undefined]).  Properties of objects are own properties; functions,
    wrapper objects and prototype overrides are outside the fragment. *)
Inductive val : Type :=
| VUndef
| VNull
| VBool (b : bool)
| VNum (n : number)
| VStr (s : string)
| VArr (elems : list val)
| VObj (props : list (string * val)).

#[global] Instance val_inhabited : Inhabited val := populate VUndef.

(** The parts of the language runtime the controller calls but whose
    algorithms are not its own: printing and reading of numbers and the JSON
    reader ([None] is a [SyntaxError]). *)
Class Runtime : Type := {
  num_to_string : number -> string;
  str_to_number : string -> number;
  JSON_parse : string -> option val
}.

(** Truthiness ([ToBoolean]). *)
Definition truthy (v : val) : bool :=
  match v with
  | VUndef | VNull => false
  | VBool b => b
  | VNum NaN => false
  | VNum (Fin q) => negb (Qeq_bool q 0)
  | VNum _ => true
  | VStr s => negb (String.eqb s "")
  | VArr _ | VObj _ => true
  end.

(** [a || b] *)
Definition or (a b : val) : val := if truthy a then a else b.

(** [typeof v === 'string'] *)
Definition is_string (v : val) : bool :=
  match v with VStr _ => true | _ => false end.

(** [a === b].  Arrays and objects are compared by identity in the language;
    the controller only ever compares against primitive literals, and a
    literal is never identical to an array or an object. *)
Definition strict_eq (a b : val) : bool :=
  match a, b with
  | VUndef, VUndef | VNull, VNull => true
  | VBool x, VBool y => Bool.eqb x y
  | VNum x, VNum y => num_eqb x y
  | VStr x, VStr y => String.eqb x y
  | _, _ => false
  end.

Fixpoint join (sep : string) (l : list string) : string :=
  match l with
  | [] => ""
  | [s] => s
  | s :: rest => s ++ sep ++ join sep rest
  end.

Section WithRuntime.
Context `{Runtime}.

(** [ToString], which is also what [v.toString()] returns for the values of
    the fragment other than [undefined] and [null]. *)
Fixpoint to_string (v : val) : string :=
  match v with
  | VUndef => "undefined"
  | VNull => "null"
  | VBool true => "true"
  | VBool false => "false"
  | VNum n => num_to_string n
  | VStr s => s
  | VArr elems =>
      join "," (List.map (fun e => match e with
                                   | VUndef | VNull => ""
                                   | _ => to_string e
                                   end) elems)
  | VObj _ => "[object Object]"
  end.

(** [ToNumber] *)
Definition to_number (v : val) : number :=
  match v with
  | VUndef => NaN
  | VNull => Fin 0
  | VBool true => Fin 1
  | VBool false => Fin 0
  | VNum n => n
  | VStr s => str_to_number s
  | VArr _ | VObj _ => str_to_number (to_string v)
  end.

(** The global [isNaN(v)]. *)
Definition isNaN (v : val) : bool :=
  match to_number v with NaN => true | _ => false end.

End WithRuntime.

(** *** [String.prototype.split('.')[0]], [substring(1, length)], [parseInt] *)

Definition is_dot (c : ascii) : bool := Ascii.eqb c "."%char.

(** First component of [s.split('.')]. *)
Fixpoint split_dot_head (s : string) : string :=
  match s with
  | EmptyString => EmptyString
  | String c rest => if is_dot c then EmptyString else String c (split_dot_head rest)
  end.

(** [s.substring(1, s.length)] *)
Definition substring_from_1 (s : string) : string :=
  match s with
  | EmptyString => EmptyString
  | String _ rest => rest
  end.

Definition digit_of (c : ascii) : option Z :=
  let n := Z.of_nat (nat_of_ascii c) in
  if ((48 <=? n) && (n <=? 57))%Z then Some (n - 48)%Z else None.

Definition hex_digit_of (c : ascii) : option Z :=
  let n := Z.of_nat (nat_of_ascii c) in
  if ((48 <=? n) && (n <=? 57))%Z then Some (n - 48)%Z
  else if ((97 <=? n) && (n <=? 102))%Z then Some (n - 87)%Z
  else if ((65 <=? n) && (n <=? 70))%Z then Some (n - 55)%Z
  else None.

(** Reads the longest prefix of digits in the given radix; [None] when the
    prefix is empty. *)
Fixpoint read_digits (digit : ascii -> option Z) (radix : Z) (acc : option Z) (s : string)
  : option Z :=
  match s with
  | EmptyString => acc
  | String c rest =>
      match digit c with
      | Some d => read_digits digit radix (Some (default 0%Z acc * radix + d)%Z) rest
      | None => acc
      end
  end.

Definition is_space (c : ascii) : bool :=
  let n := nat_of_ascii c in
  (n =? 32)%nat || (n =? 9)%nat || (n =? 10)%nat || (n =? 11)%nat || (n =? 12)%nat || (n =? 13)%nat.

Fixpoint skip_spaces (s : string) : string :=
  match s with
  | String c rest => if is_space c then skip_spaces rest else s
  | EmptyString => s
  end.

(** [parseInt(s)] without a radix argument. *)
Definition parseInt (s : string) : number :=
  let s := skip_spaces s in
  let '(negative, s) :=
    match s with
    | String "-" rest => (true, rest)
    | String "+" rest => (false, rest)
    | _ => (false, s)
    end in
  let magnitude :=
    match s with
    | String "0" (String "x" rest) | String "0" (String "X" rest) =>
        read_digits hex_digit_of 16 None rest
    | _ => read_digits digit_of 10 None s
    end in
  match magnitude with
  | None => NaN
  | Some m => num_of_Z (if negative then - m else m)
  end.

End JS.

(** ** The collaborators of the controller *)

Module Platform.
Import JS.

(** What a rejected promise or a [throw] carries. *)
Inductive error : Type :=
| Error (message : string)        (** [new Error(message)] *)
| SyntaxError (input : string)    (** thrown by [JSON.parse] *)
| SystemError (code : string).    (** raised by the platform (ECONNREFUSED, ESRCH, ...) *)

(** A settled promise. *)
Inductive promise (A : Type) : Type :=
| Resolved (a : A)
| Rejected (e : error).
Arguments Resolved {A} a.
Arguments Rejected {A} e.

(** Option objects ([opts]) and the stores are dictionaries from property
    names to values; an absent property reads as [undefined] ([!!!]). *)
Abbreviation dict := (gmap string val).

(** The effects of the controller on the outside, in program order. *)
Inductive event : Type :=
| console_log (msg : string)
| console_error (msg : string)
| fs_openSync (path : val) (flags : string)
| child_spawn (command : string) (args : list val)
| child_unref
| net_connect (port host : val) (outcome : option error)
| setTimeout (ms : number)
| process_kill (pid : val)
| got_request (url : val) (opts : dict).

(** How the outside answers.  [connect n port host] is the outcome of the
    [n]-th connection attempt ([None]: connected); the other calls either
    return or throw ([inl]).  [assertLogsPath] is the function of the logs
    module ([../emulator/logs]), which is not part of the controller.

    [child_process.spawn] throws on malformed arguments only.  It otherwise
    returns a child, of which [spawn] gives the [pid], also when the command
    cannot be run (ENOENT, EACCES): the [pid] of that child is [undefined]
    and the failure is delivered afterwards, as the ['error'] event that the
    child emits on the next tick, [spawn_error] ([None]: the command runs). *)
Record env : Type := {
  config : dict;
  process_version : string;
  GCLOUD_PROJECT : val;
  assertLogsPath : val -> error + val;
  openSync : val -> string -> error + val;
  spawn : string -> list val -> error + val;
  spawn_error : string -> list val -> option error;
  sys_kill : val -> option error;
  connect : nat -> val -> val -> option error;
  got : val -> dict -> error + val
}.

(** What changes while the controller runs: the persisted Status Record, the
    number of connection attempts made so far and the trace of effects. *)
Record world : Type := {
  w_status : dict;
  w_attempts : nat;
  w_trace : list event
}.

Definition emit (ev : event) (w : world) : world :=
  {| w_status := w_status w; w_attempts := w_attempts w; w_trace := w_trace w ++ [ev] |}.

Definition emit_all (evs : list event) (w : world) : world :=
  {| w_status := w_status w; w_attempts := w_attempts w; w_trace := w_trace w ++ evs |}.

(** Modelled from the spec: the status store of the missing [./store] module,
    the persisted key-value store with [get]/[set]/[clear] (and [delete],
    [all]) that holds the Status Record; none of its operations fails. *)
Definition status_get (key : string) (w : world) : val := w_status w !!! key.

(** Modelled from the spec: [store.status.set(key, value)]. *)
Definition status_set (key : string) (v : val) (w : world) : world :=
  {| w_status := <[key := v]> (w_status w); w_attempts := w_attempts w; w_trace := w_trace w |}.

(** Modelled from the spec: [store.status.set(object)], which writes every
    property of the object and keeps the other keys. *)
Definition status_set_all (o : dict) (w : world) : world :=
  {| w_status := o ∪ w_status w; w_attempts := w_attempts w; w_trace := w_trace w |}.

(** Modelled from the spec: [store.status.clear()]. *)
Definition status_clear (w : world) : world :=
  {| w_status := ∅; w_attempts := w_attempts w; w_trace := w_trace w |}.

(** Modelled from the spec: [store.status.delete(key)]. *)
Definition status_delete (key : string) (w : world) : world :=
  {| w_status := delete key (w_status w); w_attempts := w_attempts w; w_trace := w_trace w |}.

(** Modelled from the spec: [store.status.all]. *)
Definition status_all (w : world) : dict := w_status w.

(** Modelled from the spec: [store.config.get(key)], the read-only
    configuration defaults. *)
Definition config_get (E : env) (key : string) : val := config E !!! key.

(** ['...'.red] of the colors package. *)
Definition red (s : string) : string :=
  String (ascii_of_nat 27) "[31m" ++ s ++ String (ascii_of_nat 27) "[39m".

(** [response.body] and the like on a value. *)
Definition prop (key : string) (v : val) : val :=
  match v with
  | VObj props => default VUndef (snd <$> List.find (fun kv => String.eqb (fst kv) key) props)
  | _ => VUndef
  end.

(** A method call that hands back a promise, observed after a bounded number
    of timer expirations: it threw before returning the promise, its promise
    has settled, the promise is still pending with the poll counter [i], or
    the process has died of the uncaught exception [e] and the promise will
    never settle. *)
Inductive run (A : Type) : Type :=
| Threw (e : error) (w : world)
| Done (p : promise A) (w : world)
| Pending (i : val) (w : world)
| Crashed (e : error) (w : world).
Arguments Threw {A} e w.
Arguments Done {A} p w.
Arguments Pending {A} i w.
Arguments Crashed {A} e w.

(** A promise that settles without waiting for a timer. *)
Definition now (A : Type) : Type := promise A * world.

Definition lift {A} (m : now A) : run A := Done (fst m) (snd m).

(** An exception thrown inside a [then] callback rejects the chained
    promise. *)
Definition callback {A} (r : run A) : run A :=
  match r with
  | Threw e w => Done (Rejected e) w
  | _ => r
  end.

(** [p.then(onFulfilled, onRejected)] *)
Definition then2 {A B} (p : run A)
    (onFulfilled : A -> world -> run B) (onRejected : error -> world -> run B) : run B :=
  match p with
  | Threw e w => Threw e w
  | Done (Resolved a) w => callback (onFulfilled a w)
  | Done (Rejected e) w => callback (onRejected e w)
  | Pending i w => Pending i w
  | Crashed e w => Crashed e w
  end.

(** [p.then(onFulfilled)] *)
Definition then1 {A B} (p : run A) (onFulfilled : A -> world -> run B) : run B :=
  then2 p onFulfilled (fun e w => Done (Rejected e) w).

(** [p.catch(onRejected)] *)
Definition catch {A} (p : run A) (onRejected : error -> world -> run A) : run A :=
  then2 p (fun a w => Done (Resolved a) w) onRejected.

End Platform.

(** ** The controller *)

Module Controller.
Import JS Platform.

Definition TIMEOUT_POLL_INCREMENT : number := Fin 500.

Inductive STATE : Type :=
| STOPPED
| RUNNING.

(** The numeric codes of the [STATE] table. *)
Definition STATE_code (s : STATE) : Z :=
  match s with
  | STOPPED => 0
  | RUNNING => 1
  end.

(** What [status] resolves with: an object with a [state] and either a
    [metadata] or an [error] property. *)
Record report : Type := {
  state : STATE;
  metadata : option dict;
  error_of : option error
}.

Section Methods.
Context `{Runtime} (E : env).

Definition getEmulatorRootUri (opts : dict) (w : world) : string :=
  let host := or (or (opts !!! "host") (status_get "host" w)) (config_get E "host") in
  let port := or (or (opts !!! "port") (status_get "port" w)) (config_get E "port") in
  "http://" ++ to_string host ++ ":" ++ to_string port.

Definition getEmulatorFuncUri (opts : dict) (w : world) : string :=
  getEmulatorRootUri opts w ++ "/function/".

Definition getSetting (key : string) (opts : dict) : val :=
  or (opts !!! key) (config_get E key).

Definition testConnection (opts : dict) (w : world) : now unit :=
  let host := or (or (opts !!! "host") (status_get "host" w)) (config_get E "host") in
  let port := or (or (opts !!! "port") (status_get "port" w)) (config_get E "port") in
  let outcome := connect E (w_attempts w) port host in
  let w' := {| w_status := w_status w;
               w_attempts := S (w_attempts w);
               w_trace := w_trace w ++ [net_connect port host outcome] |} in
  match outcome with
  | None => (Resolved tt, w')
  | Some e => (Rejected e, w')
  end.

(** The array literal [args] of [start], before any flag is put in front of
    it with [unshift]. *)
Definition base_args (opts : dict) (logFile : val) : list val :=
  let host := getSetting "host" opts in
  let port := getSetting "port" opts in
  let projectId := or (getSetting "projectId" opts) (GCLOUD_PROJECT E) in
  [ VStr "."; VStr "--host"; host; VStr "--port"; port;
    VStr "--projectId"; projectId;
    VStr "--timeout"; getSetting "timeout" opts;
    VStr "--verbose"; getSetting "verbose" opts;
    VStr "--useMocks"; getSetting "useMocks" opts;
    VStr "--logFile"; logFile ].

(** [parseInt(semver[0].substring(1, semver[0].length))] for
    [semver = process.version.split('.')]. *)
Definition major : number :=
  let semver0 := split_dot_head (process_version E) in
  parseInt (substring_from_1 semver0).

(** The body of [start] from the declaration of [args] to the opening of
    the log file: the argument vector of the child and what is printed on
    the console. *)
Definition child_args (opts : dict) (logFile : val) : list val * list event :=
  let args := base_args opts logFile in
  let debug := getSetting "debug" opts in
  let debugPort := getSetting "debugPort" opts in
  let inspect := getSetting "inspect" opts in
  if strict_eq inspect (VBool true) || strict_eq inspect (VStr "true") then
    if geb major (Fin 6) then
      (VStr "--inspect" :: args,
       [console_log ("Starting in inspect mode. Check " ++ to_string logFile
                     ++ " for details on how to connect to the chrome debugger.")])
    else
      (args, [console_error "--inspect flag requires Node 6.3.0+"])
  else if strict_eq debug (VBool true) || strict_eq debug (VStr "true") then
    (VStr ("--debug=" ++ to_string debugPort) :: args,
     [console_log ("Starting in debug mode. Debugger listening on port "
                   ++ to_string debugPort)])
  else
    (args, []).

Fixpoint _waitForStart (fuel : nat) (opts : dict) (i : val) (w : world) : run unit :=
  let i := if negb (truthy i)
           then VNum (div (to_number (opts !!! "timeout")) TIMEOUT_POLL_INCREMENT)
           else i in
  catch (lift (testConnection opts w))
    (fun _ w =>
       let i := VNum (sub (to_number i) (Fin 1)) in
       if leb (to_number i) (Fin 0) then
         Threw (Error (red "Timeout waiting for emulator start")) w
       else
         let w := emit (setTimeout TIMEOUT_POLL_INCREMENT) w in
         match fuel with
         | O => Pending i w
         | S fuel' => _waitForStart fuel' opts i w
         end).

Fixpoint _waitForStop (fuel : nat) (opts : dict) (i : val) (w : world) : run unit :=
  let i := if negb (truthy i)
           then VNum (div (to_number (opts !!! "timeout")) TIMEOUT_POLL_INCREMENT)
           else i in
  then2 (lift (testConnection opts w))
    (fun _ w =>
       let i := VNum (sub (to_number i) (Fin 1)) in
       if leb (to_number i) (Fin 0) then
         Threw (Error "Timeout waiting for emulator stop") w
       else
         let w := emit (setTimeout TIMEOUT_POLL_INCREMENT) w in
         match fuel with
         | O => Pending i w
         | S fuel' => _waitForStop fuel' opts i w
         end)
    (fun _ w => Done (Resolved tt) w).

(** [start] registers no listener for the ['error'] event of the child.
    When the child could not be spawned, the event is emitted on the tick
    after the synchronous part of the callback (the writes to the status
    store, [unref] and the opening of the first probe), before that probe
    completes; an ['error'] event without a listener is thrown, and the
    exception ends the process. *)
Definition start (fuel : nat) (opts : dict) (w : world) : run unit :=
  then1 (Done (Resolved tt) w)
    (fun _ w =>
       let host := getSetting "host" opts in
       let port := getSetting "port" opts in
       let projectId := or (getSetting "projectId" opts) (GCLOUD_PROJECT E) in
       match assertLogsPath E (getSetting "logFile" opts) with
       | inl e => Threw e w
       | inr logFile =>
           let '(args, printed) := child_args opts logFile in
           let debug := getSetting "debug" opts in
           let debugPort := getSetting "debugPort" opts in
           let inspect := getSetting "inspect" opts in
           let w := emit_all printed w in
           let w := emit (fs_openSync logFile "a") w in
           match openSync E logFile "a" with
           | inl e => Threw e w
           | inr out =>
               let w := emit (child_spawn "node" args) w in
               match spawn E "node" args with
               | inl e => Threw e w
               | inr pid =>
                   let w := status_set_all
                              (<["debug" := debug]>
                                 (<["debugPort" := debugPort]>
                                    (<["host" := host]>
                                       (<["inspect" := inspect]>
                                          (<["logFile" := logFile]>
                                             (<["port" := port]>
                                                (<["projectId" := projectId]> ∅))))))) w in
                   let w := status_set "pid" pid w in
                   let w := emit child_unref w in
                   match spawn_error E "node" args with
                   | Some e => Crashed e w
                   | None => _waitForStart fuel opts VUndef w
                   end
               end
           end
       end).

Definition kill (opts : dict) (w : world) : run unit :=
  catch
    (then1 (Done (Resolved tt) w)
       (fun _ w =>
          let pid := status_get "pid" w in
          let w := emit (process_kill pid) w in
          match sys_kill E pid with
          | Some e => Threw e w
          | None => Done (Resolved tt) (status_clear w)
          end))
    (fun _ w => Done (Resolved tt) (status_clear w)).

Definition _action (arg : string + dict) (w : world) : run val :=
  let opts := match arg with
              | inl s => <["url" := VStr s]> ∅
              | inr o => o
              end in
  let opts := if truthy (opts !!! "method") then opts else <["method" := VStr "GET"]> opts in
  let opts := <["json" := VBool true]> opts in
  let parsed : error + dict :=
    if strict_eq (opts !!! "method") (VStr "POST") && truthy (opts !!! "data") then
      if String.eqb (to_string (opts !!! "data")) "[object String]"
         || is_string (opts !!! "data") then
        match JSON_parse (to_string (opts !!! "data")) with
        | Some v => inr (<["json" := v]> opts)
        | None => inl (SyntaxError (to_string (opts !!! "data")))
        end
      else
        inr (<["json" := opts !!! "data"]> opts)
    else inr opts in
  match parsed with
  | inl e => Threw e w
  | inr opts =>
      let raw := opts !!! "raw" in
      let opts := delete "raw" opts in
      let w := emit (got_request (opts !!! "url") opts) w in
      then1 (match got E (opts !!! "url") opts with
             | inl e => Done (Rejected e) w
             | inr response => Done (Resolved response) w
             end)
        (fun response w =>
           Done (Resolved (if truthy raw then response else prop "body" response)) w)
  end.

Definition stop (fuel : nat) (opts : dict) (w : world) : run unit :=
  then2
    (then1
       (_action (inr (<["method" := VStr "DELETE"]>
                        (<["url" := VStr (getEmulatorRootUri opts w)]>
                           (<["timeout" := VNum (Fin 5000)]> ∅)))) w)
       (fun _ w => _waitForStop fuel opts VUndef w))
    (fun _ w => kill opts w)
    (fun _ w => kill opts w).

Definition clear (opts : dict) (w : world) : run val :=
  _action (inr (<["method" := VStr "DELETE"]>
                  (<["url" := VStr (getEmulatorFuncUri opts w)]> ∅))) w.

Definition prune (opts : dict) (w : world) : run val :=
  _action (inr (<["method" := VStr "PATCH"]>
                  (<["url" := VStr (getEmulatorFuncUri opts w)]> ∅))) w.

Definition status (opts : dict) (w : world) : run report :=
  then2 (lift (testConnection opts w))
    (fun _ w =>
       Done (Resolved {| state := RUNNING; metadata := Some (status_all w); error_of := None |}) w)
    (fun err w =>
       Done (Resolved {| state := STOPPED; metadata := None; error_of := Some err |}) w).

(** [path.resolve] belongs to the runtime; it is handed in as [resolve]. *)
Definition deploy (resolve : string -> string) (modulePath entryPoint type : string)
    (opts : dict) (w : world) : run val :=
  _action (inr (<["method" := VStr "POST"]>
                  (<["url" := VStr (getEmulatorFuncUri opts w ++ entryPoint
                                    ++ "?path=" ++ resolve modulePath
                                    ++ "&type=" ++ type)]> ∅))) w.

Definition undeploy (name : string) (opts : dict) (w : world) : run val :=
  _action (inr (<["method" := VStr "DELETE"]>
                  (<["url" := VStr (getEmulatorFuncUri opts w ++ name)]> ∅))) w.

(** [list]; the name is taken by the type of lists. *)
Definition list_ (opts : dict) (w : world) : run val :=
  _action (inl (getEmulatorFuncUri opts w)) w.

Definition describe (name : string) (opts : dict) (w : world) : run val :=
  _action (inl (getEmulatorFuncUri opts w ++ name)) w.

Definition call (name : string) (data : val) (opts : dict) (w : world) : run val :=
  _action (inr (<["data" := data]>
                  (<["method" := VStr "POST"]>
                     (<["url" := VStr (getEmulatorRootUri opts w ++ "/" ++ name)]>
                        (<["raw" := VBool true]> ∅))))) w.

Definition getCurrentEnvironment (opts : dict) (w : world) : run val :=
  _action (inr (<["url" := VStr (getEmulatorRootUri opts w ++ "/?env=true")]>
                  (<["timeout" := VNum (Fin 2000)]> ∅))) w.

Definition _deletePID (w : world) : world := status_delete "pid" w.

End Methods.

End Controller.

(** ** A reference runtime

    An executable instance of [JS.Runtime] for plain decimal notation: numbers
    are read as [-]digits[.digits] (no exponent) and rounded to the nearest
    double; they are printed by their decimal expansion (no exponent, at most
    20 fraction digits), which is the notation of the language for the whole
    numbers of the examples, ports and process ids; the JSON reader covers
    objects, arrays, the three literals, such numbers and strings without
    escape sequences.  The properties of the controller below hold for every
    runtime; this one serves to run the controller on examples. *)

Module Reference.
Import JS.

Definition dquote : ascii := "034"%char.

Definition Z_to_string (z : Z) : string :=
  let fix digits (fuel : nat) (n : Z) (acc : string) : string :=
    match fuel with
    | O => acc
    | S fuel' =>
        let acc' := String (ascii_of_nat (Z.to_nat (48 + n mod 10))) acc in
        if (n <? 10)%Z then acc' else digits fuel' (n / 10)%Z acc'
    end in
  let body := digits (S (Z.to_nat (Z.log2 (Z.abs z)))) (Z.abs z) "" in
  if (z <? 0)%Z then String "-" body else body.

(** Up to [fuel] digits of the fraction [n / d], [0 <= n < d]. *)
Fixpoint fraction_digits (fuel : nat) (n d : Z) : string :=
  match fuel with
  | O => ""
  | S fuel' =>
      if (n =? 0)%Z then ""
      else String (ascii_of_nat (Z.to_nat (48 + (10 * n) / d)))
                  (fraction_digits fuel' ((10 * n) mod d) d)
  end.

Definition print_number (a : number) : string :=
  match a with
  | NaN => "NaN"
  | PInf => "Infinity"
  | NInf => "-Infinity"
  | Fin q =>
      let n := Qnum q in
      let d := Z.pos (Qden q) in
      let whole := (Z.abs n / d)%Z in
      let frac := fraction_digits 20 (Z.abs n mod d) d in
      let sign := if (n <? 0)%Z then "-" else "" in
      sign ++ Z_to_string whole ++ (if String.eqb frac "" then "" else "." ++ frac)
  end.

(** Digits of [s] as a numerator and the power of ten they were scaled
    by, with what follows them. *)
Fixpoint read_decimal (s : string) (acc : Z) (scale : positive) (count : nat)
  : Z * positive * nat * string :=
  match s with
  | String c rest =>
      match digit_of c with
      | Some d => read_decimal rest (acc * 10 + d)%Z (scale * 10)%positive (S count)
      | None => (acc, scale, count, s)
      end
  | EmptyString => (acc, scale, count, s)
  end.

(** [-]digits[.digits] at the head of [s]. *)
Definition read_number (s : string) : option (Q * string) :=
  let '(negative, s) := match s with
                        | String "-" rest => (true, rest)
                        | _ => (false, s)
                        end in
  let '(whole, _, count, s) := read_decimal s 0 1 0 in
  match count with
  | O => None
  | S _ =>
      let '(num, den, s) :=
        match s with
        | String "." rest =>
            let '(frac, scale, fcount, rest') := read_decimal rest whole 1 0 in
            match fcount with
            | O => (whole, 1%positive, s)
            | S _ => (frac, scale, rest')
            end
        | _ => (whole, 1%positive, s)
        end in
      Some (Qred ((if negative then - num else num)%Z # den), s)
  end.

Definition parse_number (s : string) : number :=
  let s := skip_spaces s in
  if String.eqb s "" then Fin 0
  else if String.eqb s "Infinity" || String.eqb s "+Infinity" then PInf
  else if String.eqb s "-Infinity" then NInf
  else
    match read_number (match s with String "+" rest => rest | _ => s end) with
    | Some (q, rest) => if String.eqb (skip_spaces rest) "" then round64 q else NaN
    | None => NaN
    end.

(** The characters of a JSON string up to its closing quote. *)
Fixpoint read_string (s : string) : option (string * string) :=
  match s with
  | EmptyString => None
  | String c rest =>
      if Ascii.eqb c dquote then Some ("", rest)
      else if Ascii.eqb c "\"%char then None
      else match read_string rest with
           | Some (body, rest') => Some (String c body, rest')
           | None => None
           end
  end.

Definition expect (prefix : string) (v : val) (s : string) : option (val * string) :=
  if String.prefix prefix s
  then Some (v, String.substring (String.length prefix)
                                 (String.length s - String.length prefix) s)
  else None.

Fixpoint read_value (fuel : nat) (s : string) : option (val * string) :=
  match fuel with
  | O => None
  | S fuel' =>
      match skip_spaces s with
      | String "{" rest =>
          match skip_spaces rest with
          | String "}" rest' => Some (VObj [], rest')
          | _ => option_map (fun '(props, rest') => (VObj props, rest'))
                            (read_members fuel' rest)
          end
      | String "[" rest =>
          match skip_spaces rest with
          | String "]" rest' => Some (VArr [], rest')
          | _ => option_map (fun '(elems, rest') => (VArr elems, rest'))
                            (read_elements fuel' rest)
          end
      | String "t" _ as s' => expect "true" (VBool true) s'
      | String "f" _ as s' => expect "false" (VBool false) s'
      | String "n" _ as s' => expect "null" VNull s'
      | String c rest as s' =>
          if Ascii.eqb c dquote
          then option_map (fun '(body, rest') => (VStr body, rest')) (read_string rest)
          else option_map (fun '(q, rest') => (VNum (round64 q), rest')) (read_number s')
      | EmptyString => None
      end
  end
with read_members (fuel : nat) (s : string) : option (list (string * val) * string) :=
  match fuel with
  | O => None
  | S fuel' =>
      match skip_spaces s with
      | String c rest =>
          if Ascii.eqb c dquote then
            match read_string rest with
            | Some (key, rest1) =>
                match skip_spaces rest1 with
                | String ":" rest2 =>
                    match read_value fuel' rest2 with
                    | Some (v, rest3) =>
                        match skip_spaces rest3 with
                        | String "," rest4 =>
                            option_map (fun '(props, rest5) => ((key, v) :: props, rest5))
                                       (read_members fuel' rest4)
                        | String "}" rest4 => Some ([(key, v)], rest4)
                        | _ => None
                        end
                    | None => None
                    end
                | _ => None
                end
            | None => None
            end
          else None
      | EmptyString => None
      end
  end
with read_elements (fuel : nat) (s : string) : option (list val * string) :=
  match fuel with
  | O => None
  | S fuel' =>
      match read_value fuel' s with
      | Some (v, rest) =>
          match skip_spaces rest with
          | String "," rest' =>
              option_map (fun '(elems, rest'') => (v :: elems, rest''))
                         (read_elements fuel' rest')
          | String "]" rest' => Some ([v], rest')
          | _ => None
          end
      | None => None
      end
  end.

Definition parse_json (s : string) : option val :=
  match read_value (S (String.length s)) s with
  | Some (v, rest) => if String.eqb (skip_spaces rest) "" then Some v else None
  | None => None
  end.

#[global] Instance runtime : Runtime := {|
  num_to_string := print_number;
  str_to_number := parse_number;
  JSON_parse := parse_json
|}.



End Reference.

(** ** Scenarios

    Concrete collaborators and inputs on which the controller is run in the
    examples below. *)

Module Scenario.
Import JS Platform.

(** Configuration defaults. *)
Definition defaults : dict :=
  list_to_map
    [ ("host", VStr "localhost"); ("port", VNum (Fin 8008));
      ("timeout", VNum (Fin 3000)); ("logFile", VStr "logs/emulator.log");
      ("projectId", VStr "demo"); ("debugPort", VNum (Fin 5858)) ].

Definition refused : error := SystemError "ECONNREFUSED".

Definition ok_response : val :=
  VObj [("statusCode", VNum (Fin 200)); ("body", VStr "ok")].

(** The child is spawned but never binds its port. *)
Definition never_up : env :=
  {| config := defaults;
     process_version := "v6.9.1";
     GCLOUD_PROJECT := VUndef;
     assertLogsPath := fun p => inr p;
     openSync := fun _ _ => inr (VNum (Fin 3));
     spawn := fun _ _ => inr (VNum (Fin 4242));
     spawn_error := fun _ _ => None;
     sys_kill := fun _ => Some (SystemError "ESRCH");
     connect := fun _ _ _ => Some refused;
     got := fun _ _ => inl refused |}.

(** The server is up and stays up, whatever it is sent. *)
Definition stays_up : env :=
  {| config := defaults;
     process_version := "v6.9.1";
     GCLOUD_PROJECT := VUndef;
     assertLogsPath := fun p => inr p;
     openSync := fun _ _ => inr (VNum (Fin 3));
     spawn := fun _ _ => inr (VNum (Fin 4242));
     spawn_error := fun _ _ => None;
     sys_kill := fun _ => None;
     connect := fun _ _ _ => None;
     got := fun _ _ => inr ok_response |}.

(** Spawning the child throws, on a runtime older than 6. *)
Definition no_child : env :=
  {| config := defaults;
     process_version := "v4.4.7";
     GCLOUD_PROJECT := VUndef;
     assertLogsPath := fun p => inr p;
     openSync := fun _ _ => inr (VNum (Fin 3));
     spawn := fun _ _ => inl (SystemError "EPERM");
     spawn_error := fun _ _ => None;
     sys_kill := fun _ => None;
     connect := fun _ _ _ => Some refused;
     got := fun _ _ => inl refused |}.

(** There is no [node] on the path: [spawn] returns a child without a pid,
    which then emits ['error']. *)
Definition no_runtime : env :=
  {| config := defaults;
     process_version := "v6.9.1";
     GCLOUD_PROJECT := VUndef;
     assertLogsPath := fun p => inr p;
     openSync := fun _ _ => inr (VNum (Fin 3));
     spawn := fun _ _ => inr VUndef;
     spawn_error := fun _ _ => Some (SystemError "ENOENT");
     sys_kill := fun _ => Some (SystemError "ESRCH");
     connect := fun _ _ _ => Some refused;
     got := fun _ _ => inl refused |}.

(** The child binds its port between the second and the third probe. *)
Definition up_at_third : env :=
  {| config := defaults;
     process_version := "v6.9.1";
     GCLOUD_PROJECT := VUndef;
     assertLogsPath := fun p => inr p;
     openSync := fun _ _ => inr (VNum (Fin 3));
     spawn := fun _ _ => inr (VNum (Fin 4242));
     spawn_error := fun _ _ => None;
     sys_kill := fun _ => None;
     connect := fun k _ _ => if (k <? 2)%nat then Some refused else None;
     got := fun _ _ => inr ok_response |}.

(** No configuration at all. *)
Definition unconfigured : env :=
  {| config := ∅;
     process_version := "v6.9.1";
     GCLOUD_PROJECT := VUndef;
     assertLogsPath := fun p => inr p;
     openSync := fun _ _ => inr (VNum (Fin 3));
     spawn := fun _ _ => inr (VNum (Fin 4242));
     spawn_error := fun _ _ => None;
     sys_kill := fun _ => None;
     connect := fun _ _ _ => None;
     got := fun _ _ => inr ok_response |}.

(** Nothing persisted, nothing done yet. *)
Definition fresh : world := {| w_status := ∅; w_attempts := 0; w_trace := [] |}.

(** A Status Record left by an earlier [start]. *)
Definition running : world :=
  {| w_status := list_to_map [ ("pid", VNum (Fin 4242)); ("host", VStr "localhost");
                               ("port", VNum (Fin 8010)) ];
     w_attempts := 0;
     w_trace := [] |}.

(** [{timeout: 1000}], [{timeout: 0}], [{timeout: Infinity}] and
    [{inspect: true, debug: true}]. *)
Definition timeout_1000 : dict := {[ "timeout" := VNum (Fin 1000) ]}.
Definition timeout_0 : dict := {[ "timeout" := VNum (Fin 0) ]}.
Definition timeout_infinite : dict := {[ "timeout" := VNum PInf ]}.

(** [{timeout: 1e19}]: the counter starts at 2e16, above [2^53]. *)
Definition timeout_1e19 : dict :=
  {[ "timeout" := VNum (Fin (inject_Z 10000000000000000000)) ]}.

(** [{debug: true}]. *)
Definition debug_only : dict := {[ "debug" := VBool true ]}.

(** [{timeout: 3000}]. *)
Definition timeout_3000 : dict := {[ "timeout" := VNum (Fin 3000) ]}.
Definition inspect_and_debug : dict :=
  <["inspect" := VBool true]> {[ "debug" := VBool true ]}.

End Scenario.

(** ** The vocabulary of the properties *)

Import JS Platform Controller.

Section Vocabulary.
Context `{Runtime} (E : env).

(** [x === true || x === 'true'] *)
Definition requested (x : val) : bool :=
  strict_eq x (VBool true) || strict_eq x (VStr "true").

(** The host and port a probe connects to, and what the probe finds. *)
Definition probe_host (opts : dict) (w : world) : val :=
  or (or (opts !!! "host") (status_get "host" w)) (config_get E "host").

Definition probe_port (opts : dict) (w : world) : val :=
  or (or (opts !!! "port") (status_get "port" w)) (config_get E "port").

Definition probe_outcome (opts : dict) (w : world) : option error :=
  connect E (w_attempts w) (probe_port opts w) (probe_host opts w).

(** The world after one probe. *)
Definition probed (opts : dict) (w : world) : world :=
  {| w_status := w_status w;
     w_attempts := S (w_attempts w);
     w_trace := w_trace w
                ++ [net_connect (probe_port opts w) (probe_host opts w) (probe_outcome opts w)] |}.

(** [opts.timeout / TIMEOUT_POLL_INCREMENT], the counter a poll starts from. *)
Definition initial_count (opts : dict) : val :=
  VNum (div (to_number (opts !!! "timeout")) TIMEOUT_POLL_INCREMENT).

(** [i--] *)
Definition decremented (i : val) : val := VNum (sub (to_number i) (Fin 1)).

(** One round of a poll that goes on: a probe, then the timer. *)
Definition round (opts : dict) (w : world) : world :=
  emit (setTimeout TIMEOUT_POLL_INCREMENT) (probed opts w).

Definition rounds (n : nat) (opts : dict) (w : world) : world :=
  Nat.iter n (round opts) w.

(** The two polls are one loop: probe; on the outcomes in [retry] count down
    and either give up with [expired] or wait and probe again; on the other
    outcomes resolve. *)
Fixpoint poll (retry : option error -> bool) (expired : error)
    (fuel : nat) (opts : dict) (i : val) (w : world) : run unit :=
  let i := if negb (truthy i) then initial_count opts else i in
  if retry (probe_outcome opts w) then
    if leb (to_number (decremented i)) (Fin 0) then
      Done (Rejected expired) (probed opts w)
    else
      match fuel with
      | O => Pending (decremented i) (round opts w)
      | S fuel' => poll retry expired fuel' opts (decremented i) (round opts w)
      end
  else Done (Resolved tt) (probed opts w).

(** Which probe outcomes keep each poll going. *)
Definition down (o : option error) : bool := match o with Some _ => true | None => false end.

Definition up (o : option error) : bool := negb (down o).

Definition start_timeout : error := Error (red "Timeout waiting for emulator start").

Definition stop_timeout : error := Error "Timeout waiting for emulator stop".

(** The counter of a poll after [k] decrements. *)
Definition countdown (opts : dict) (k : nat) : val :=
  Nat.iter k decremented (initial_count opts).

(** [i <= 0], the test that ends a poll with its timeout error. *)
Definition used_up (i : val) : bool := leb (to_number i) (Fin 0).

(** The counter is used up by the decrement that follows [n] rounds, its
    [n + 1]-th decrement, and by none before. *)
Definition expires_after (opts : dict) (n : nat) : Prop :=
  (forall k, (1 <= k <= n)%nat -> used_up (countdown opts k) = false)
  /\ used_up (countdown opts (S n)) = true.

(** No decrement uses the counter up. *)
Definition never_expires (opts : dict) : Prop :=
  forall k, (1 <= k)%nat -> used_up (countdown opts k) = false.

(** The counter of a poll when it is the whole number [m]. *)
Definition count (m : Z) : val := VNum (Fin (inject_Z m)).

(** The rounds a counter that starts from the whole number [m] allows
    before the probe at which it expires. *)
Definition rounds_allowed (m : Z) : nat := Z.to_nat (m - 1).

(** The settings [start] writes to the status store once the child is
    spawned; the pid is written next. *)
Definition settings_record (opts : dict) (logFile : val) : dict :=
  <["debug" := getSetting E "debug" opts]>
    (<["debugPort" := getSetting E "debugPort" opts]>
       (<["host" := getSetting E "host" opts]>
          (<["inspect" := getSetting E "inspect" opts]>
             (<["logFile" := logFile]>
                (<["port" := getSetting E "port" opts]>
                   (<["projectId" := or (getSetting E "projectId" opts) (GCLOUD_PROJECT E)]>
                      ∅)))))).

(** The world in which [start] begins to poll: log file opened, child spawned
    and detached, Status Record written. *)
Definition launched (opts : dict) (logFile pid : val) (w : world) : world :=
  {| w_status := <["pid" := pid]> (settings_record opts logFile ∪ w_status w);
     w_attempts := w_attempts w;
     w_trace := w_trace w ++ snd (child_args E opts logFile)
                ++ [fs_openSync logFile "a";
                    child_spawn "node" (fst (child_args E opts logFile));
                    child_unref] |}.

(** The options [stop] hands to the HTTP client. *)
Definition shutdown_request (opts : dict) (w : world) : dict :=
  delete "raw"
    (<["json" := VBool true]>
       (<["method" := VStr "DELETE"]>
          (<["url" := VStr (getEmulatorRootUri E opts w)]>
             (<["timeout" := VNum (Fin 5000)]> ∅)))).

(** The world once the DELETE request has been issued. *)
Definition shutdown_requested (opts : dict) (w : world) : world :=
  emit (got_request (VStr (getEmulatorRootUri E opts w)) (shutdown_request opts w)) w.

(** The world after [kill]. *)
Definition killed (w : world) : world :=
  {| w_status := ∅;
     w_attempts := w_attempts w;
     w_trace := w_trace w ++ [process_kill (status_get "pid" w)] |}.

(** The option objects handed to the HTTP client so far, oldest first. *)
Definition requests (w : world) : list dict :=
  omap (fun ev => match ev with got_request _ o => Some o | _ => None end) (w_trace w).

(** The [json] property of the last request a call has sent, if it sent one. *)
Definition outgoing_json (r : run val) : option val :=
  match r with
  | Done _ w => (fun o : dict => o !!! "json") <$> last (requests w)
  | _ => None
  end.

(** What the dispatcher takes for a string body:
    [data.toString() === '[object String]' || typeof data === 'string']. *)
Definition taken_for_string (data : val) : bool :=
  String.eqb (to_string data) "[object String]" || is_string data.

(** The options [call] builds for [_action]. *)
Definition call_options (name : string) (data : val) (opts : dict) (w : world) : dict :=
  <["data" := data]>
    (<["method" := VStr "POST"]>
       (<["url" := VStr (getEmulatorRootUri E opts w ++ "/" ++ name)]>
          (<["raw" := VBool true]> ∅))).


(** The options object [_action] works on: a bare URL stands for [{url}]. *)
Definition given (arg : string + dict) : dict :=
  match arg with
  | inl s => <["url" := VStr s]> ∅
  | inr o => o
  end.

(** [opts.method === 'POST' && opts.data] *)
Definition has_body (o : dict) : bool :=
  strict_eq (o !!! "method") (VStr "POST") && truthy (o !!! "data").

(** The options [_action] hands to the HTTP client when the JSON payload is
    [payload]: the method defaulted, [json] set, [raw] removed. *)
Definition request_of (arg : string + dict) (payload : val) : dict :=
  delete "raw"
    (<["json" := payload]>
       (if truthy (given arg !!! "method") then given arg
        else <["method" := VStr "GET"]> (given arg))).

(** What [_action] does once the payload is decided: one request, whose
    outcome settles the promise. *)
Definition sends (arg : string + dict) (payload : val) (w : world) : run val :=
  let req := request_of arg payload in
  Done (match got E (req !!! "url") req with
        | inl e => Rejected e
        | inr response =>
            Resolved (if truthy (given arg !!! "raw") then response else prop "body" response)
        end)
       (emit (got_request (req !!! "url") req) w).

(** A run that is one request with the given method to the given URL, without
    a body, and that yields the decoded body of the response. *)
Definition sends_plain (r : run val) (method url : string) (w : world) : Prop :=
  exists req : dict,
    r = Done (match got E (VStr url) req with
              | inl e => Rejected e
              | inr response => Resolved (prop "body" response)
              end)
             (emit (got_request (VStr url) req) w)
    /\ req !!! "method" = VStr method
    /\ req !!! "url" = VStr url
    /\ req !!! "json" = VBool true
    /\ req !! "data" = None
    /\ req !! "raw" = None.

(** The outcome of the [j]-th probe of a poll started in [w]. *)
Definition nth_probe (opts : dict) (w : world) (j : nat) : option error :=
  connect E (w_attempts w + j) (probe_port opts w) (probe_host opts w).

(** No character of [s] is a dot. *)
Fixpoint dot_free (s : string) : bool :=
  match s with
  | EmptyString => true
  | String c rest => negb (is_dot c) && dot_free rest
  end.

(** The readings of the specification that the code does not bear out, stated
    so that they can be refuted. *)

(** [status] fetches the metadata with a GET of [?env=true] when the probe
    succeeds. *)
Definition status_fetches_environment (opts : dict) (w : world) : Prop :=
  probe_outcome opts w = None ->
  exists (rep : report) (w' : world) (o : dict),
    status E opts w = Done (Resolved rep) w'
    /\ state rep = RUNNING
    /\ In (got_request (VStr (getEmulatorRootUri E opts w ++ "/?env=true")) o) (w_trace w').

(** [start] rejects with the start-timeout whenever every probe fails. *)
Definition start_times_out_when_down (opts : dict) (w : world) : Prop :=
  (forall k port host, connect E k port host <> None) ->
  exists (fuel : nat) (w' : world),
    start E fuel opts w = Done (Rejected start_timeout) w'.

(** The start poll ends only when [opts.timeout] is a positive number. *)
Definition poll_ends_only_with_positive_timeout (opts : dict) (w : world) : Prop :=
  (exists fuel p w', _waitForStart E fuel opts VUndef w = Done p w') ->
  exists t : Q, to_number (opts !!! "timeout") = Fin t /\ (0 < t)%Q.


(** [start] treats a falsy option as an absent one, for a setting with a
    truthy configured default. *)
Definition start_ignores_falsy_option (key : string) (v : val) (opts : dict) (w : world) : Prop :=
  truthy v = false ->
  truthy (config_get E key) = true ->
  forall fuel, start E fuel (<[key := v]> opts) w = start E fuel (delete key opts) w.

End Vocabulary.

(** ** Properties *)

(** *** Resolution of settings *)

Section Settings.
Context `{Runtime} (E : env).

Lemma or_falsy (a b : val) : truthy a = false -> or a b = b.
Proof. unfold or. intros ->. reflexivity. Qed.

Lemma or_truthy (a b : val) : truthy a = true -> or a b = a.
Proof. unfold or. intros ->. reflexivity. Qed.

Lemma truthy_or (a b : val) : truthy (or a b) = truthy a || truthy b.
Proof. unfold or. destruct (truthy a) eqn:Ha; simpl; [exact Ha | reflexivity]. Qed.

Lemma getSetting_absent (key : string) (opts : dict) :
  getSetting E key (delete key opts) = config_get E key.
Proof.
  unfold getSetting. rewrite lookup_total_delete_eq. reflexivity.
Qed.

Lemma getSetting_truthy_default (key : string) (opts : dict) :
  truthy (config_get E key) = true -> truthy (getSetting E key opts) = true.
Proof.
  intros Hc. unfold getSetting. rewrite truthy_or, Hc. apply orb_true_r.
Qed.

(** The host and the port of the root URI, as [getEmulatorRootUri] resolves
    them. *)
Lemma root_uri_shape (opts : dict) (w : world) :
  getEmulatorRootUri E opts w =
    "http://" ++ to_string (or (or (opts !!! "host") (status_get "host" w)) (config_get E "host"))
    ++ ":" ++ to_string (or (or (opts !!! "port") (status_get "port" w)) (config_get E "port")).
Proof. reflexivity. Qed.

(** C9, as the code has it.  A caller-supplied option with a falsy value
    ([false], [0], [''], [null], [undefined], NaN) is treated as absent by
    [getSetting] and by [getEmulatorRootUri].  For every key [key] and
    falsy [v]: [getSetting] on options holding [key: v] returns the
    configuration default, exactly as on options without [key];
    [getEmulatorRootUri] on options holding a falsy [host] (or [port]) takes
    the host (port) of the persisted Status Record when that one is truthy
    and of the configuration otherwise, exactly as without the option; and a
    setting whose configured default is truthy never resolves to a falsy
    value, nor does the host or port of the root URI when the persisted or
    the configured one is truthy. *)
Theorem falsy_option_is_absent (key : string) (v : val) (opts : dict) (w : world) :
  truthy v = false ->
  getSetting E key (<[key := v]> opts) = config_get E key
  /\ getSetting E key (<[key := v]> opts) = getSetting E key (delete key opts)
  /\ getEmulatorRootUri E (<["host" := v]> opts) w =
       "http://"
       ++ to_string (if truthy (status_get "host" w)
                     then status_get "host" w else config_get E "host")
       ++ ":"
       ++ to_string (or (or (opts !!! "port") (status_get "port" w)) (config_get E "port"))
  /\ getEmulatorRootUri E (<["port" := v]> opts) w =
       "http://"
       ++ to_string (or (or (opts !!! "host") (status_get "host" w)) (config_get E "host"))
       ++ ":"
       ++ to_string (if truthy (status_get "port" w)
                     then status_get "port" w else config_get E "port")
  /\ getEmulatorRootUri E (<[key := v]> opts) w = getEmulatorRootUri E (delete key opts) w
  /\ (truthy (config_get E key) = true ->
      forall opts' : dict, truthy (getSetting E key opts') = true)
  /\ (forall opts' : dict,
        truthy (status_get "host" w) || truthy (config_get E "host") = true ->
        truthy (or (or (opts' !!! "host") (status_get "host" w)) (config_get E "host")) = true)
  /\ (forall opts' : dict,
        truthy (status_get "port" w) || truthy (config_get E "port") = true ->
        truthy (or (or (opts' !!! "port") (status_get "port" w)) (config_get E "port")) = true).
Proof.
  intros Hv.
  assert (Hget : getSetting E key (<[key := v]> opts) = config_get E key).
  { unfold getSetting. rewrite lookup_total_insert_eq. apply or_falsy, Hv. }
  split; [exact Hget |].
  split; [rewrite Hget; symmetry; apply getSetting_absent |].
  split.
  { rewrite root_uri_shape, lookup_total_insert_eq.
    rewrite (lookup_total_insert_ne opts "host" "port") by discriminate.
    rewrite (or_falsy v) by exact Hv. reflexivity. }
  split.
  { rewrite root_uri_shape, lookup_total_insert_eq.
    rewrite (lookup_total_insert_ne opts "port" "host") by discriminate.
    rewrite (or_falsy v) by exact Hv. reflexivity. }
  split.
  { rewrite !root_uri_shape.
    destruct (decide (key = "host")) as [-> | Hh].
    - rewrite lookup_total_insert_eq, lookup_total_delete_eq.
      rewrite (lookup_total_insert_ne opts "host" "port") by discriminate.
      rewrite (lookup_total_delete_ne opts "host" "port") by discriminate.
      rewrite (or_falsy v) by exact Hv. reflexivity.
    - rewrite (lookup_total_insert_ne opts key "host") by exact Hh.
      rewrite (lookup_total_delete_ne opts key "host") by exact Hh.
      destruct (decide (key = "port")) as [-> | Hp].
      + rewrite lookup_total_insert_eq, lookup_total_delete_eq.
        rewrite (or_falsy v) by exact Hv. reflexivity.
      + rewrite (lookup_total_insert_ne opts key "port") by exact Hp.
        rewrite (lookup_total_delete_ne opts key "port") by exact Hp.
        reflexivity. }
  split; [intros Hc opts'; apply getSetting_truthy_default, Hc |].
  split; intros opts' Hd; rewrite !truthy_or, <- orb_assoc, Hd; apply orb_true_r.
Qed.

End Settings.

(** *** The debugger flags of the child *)

Section Flags.
Context `{Runtime} (E : env).

Lemma requested_cases (x : val) :
  requested x = true <-> x = VBool true \/ x = VStr "true".
Proof.
  unfold requested. split.
  - destruct x as [| | b | n | s | l | o]; simpl; try discriminate.
    + destruct b; [auto | discriminate].
    + intros Hs. apply String.eqb_eq in Hs. subst. auto.
  - intros [-> | ->]; reflexivity.
Qed.

Lemma debug_flag_differs (port : string) : VStr "--inspect" <> VStr ("--debug=" ++ port).
Proof. discriminate. Qed.

(** C6.  [start] puts at most one flag in front of the argument vector of
    the child: the arguments are the base array preceded by nothing, by
    [--inspect] alone or by [--debug=<debugPort>] alone.  [--inspect] is
    added exactly when inspect is requested ([true] or ['true']) and the
    major version of the runtime is >= 6; when inspect is requested on an
    older runtime nothing is added and the warning is printed on the error
    console; [--debug=] is added exactly when inspect is not requested and
    debug is, so that inspect wins when both are requested. *)
Theorem at_most_one_debugger_flag (opts : dict) (logFile : val) :
  let inspect := getSetting E "inspect" opts in
  let debug := getSetting E "debug" opts in
  let debugPort := getSetting E "debugPort" opts in
  let base := base_args E opts logFile in
  let args := fst (child_args E opts logFile) in
  let printed := snd (child_args E opts logFile) in
  (args = base \/ args = VStr "--inspect" :: base
   \/ args = VStr ("--debug=" ++ to_string debugPort) :: base)
  /\ (args = VStr "--inspect" :: base
      <-> requested inspect = true /\ geb (major E) (Fin 6) = true)
  /\ (requested inspect = true -> geb (major E) (Fin 6) = false ->
      args = base /\ printed = [console_error "--inspect flag requires Node 6.3.0+"])
  /\ (args = VStr ("--debug=" ++ to_string debugPort) :: base
      <-> requested inspect = false /\ requested debug = true)
  /\ (requested inspect = true -> requested debug = true ->
      args <> VStr ("--debug=" ++ to_string debugPort) :: base).
Proof.
  intros inspect debug debugPort base args printed.
  subst args printed. unfold child_args.
  fold inspect debug debugPort base. fold (requested inspect) (requested debug).
  assert (Hlen : forall x : val, base <> x :: base).
  { intros x Hx. apply (f_equal (@List.length val)) in Hx. simpl in Hx. lia. }
  destruct (requested inspect) eqn:Hi; [destruct (geb (major E) (Fin 6)) eqn:Hm |
                                        destruct (requested debug) eqn:Hd]; simpl;
    repeat split; intros;
    repeat match goal with
           | Hc : _ /\ _ |- _ => destruct Hc
           | Hc : base = _ :: base |- _ => exfalso; exact (Hlen _ Hc)
           end;
    try discriminate; try congruence; auto.
Qed.

(** C10.  When inspect is requested ([true] or ['true']) and the major
    version of the runtime is not >= 6, the child is started with the base
    arguments only: neither [--inspect] nor [--debug=<debugPort>] is put in
    front of them, whatever the debug setting, also when debug is requested;
    only the warning about [--inspect] is printed. *)
Theorem old_runtime_drops_inspect_and_debug (opts : dict) (logFile : val) :
  requested (getSetting E "inspect" opts) = true ->
  geb (major E) (Fin 6) = false ->
  child_args E opts logFile =
    (base_args E opts logFile, [console_error "--inspect flag requires Node 6.3.0+"])
  /\ fst (child_args E opts logFile) <> VStr "--inspect" :: base_args E opts logFile
  /\ fst (child_args E opts logFile) <>
       VStr ("--debug=" ++ to_string (getSetting E "debugPort" opts)) :: base_args E opts logFile
  /\ (requested (getSetting E "debug" opts) = true ->
      List.length (fst (child_args E opts logFile)) = List.length (base_args E opts logFile)).
Proof.
  intros Hi Hm.
  assert (Heq : child_args E opts logFile =
                  (base_args E opts logFile,
                   [console_error "--inspect flag requires Node 6.3.0+"])).
  { unfold child_args. fold (requested (getSetting E "inspect" opts)).
    rewrite Hi, Hm. reflexivity. }
  rewrite Heq. simpl.
  repeat split; try reflexivity;
    intros Hx; apply (f_equal (@List.length val)) in Hx; simpl in Hx; lia.
Qed.

End Flags.

(** *** Forced shutdown, spawn failure and the status report *)

Section Lifecycle.
Context `{Runtime} (E : env).

(** What [kill] does, whatever the store holds and whether or not the signal
    could be delivered. *)
Lemma kill_outcome (opts : dict) (w : world) :
  kill E opts w =
    Done (Resolved tt)
         {| w_status := ∅;
            w_attempts := w_attempts w;
            w_trace := w_trace w ++ [process_kill (status_get "pid" w)] |}.
Proof.
  unfold kill, catch, then1, then2, callback.
  destruct (sys_kill E (status_get "pid" w)); reflexivity.
Qed.

(** C3.  [kill] always resolves and always leaves the Status Record cleared:
    for every content of the status store (also an empty one, or one without a
    pid) and every outcome of the signal delivery, the promise resolves, the
    store is empty afterwards and the only effect is the one signal sent to
    the stored pid; calling [kill] again on the result resolves again and
    leaves the store empty. *)
Theorem kill_always_resolves_and_clears (opts : dict) (w : world) :
  exists w' : world,
    kill E opts w = Done (Resolved tt) w'
    /\ w_status w' = ∅
    /\ w_trace w' = (w_trace w ++ [process_kill (status_get "pid" w)])%list
    /\ exists w'' : world,
         kill E opts w' = Done (Resolved tt) w''
         /\ w_status w'' = ∅
         /\ w_trace w'' = (w_trace w' ++ [process_kill VUndef])%list.
Proof.
  rewrite kill_outcome. eexists. split; [reflexivity |].
  split; [reflexivity |]. split; [reflexivity |].
  rewrite kill_outcome. eexists. split; [reflexivity |].
  split; [reflexivity |]. simpl. unfold status_get. simpl.
  rewrite lookup_total_empty. reflexivity.
Qed.

(** When the log file could be opened and the call of [spawn] itself throws,
    [start] rejects with that error and writes nothing to the status store:
    the store is as it was, no probe is made, and the trace ends with the
    attempt to spawn. *)
Lemma start_rejects_before_record_when_spawn_throws
    (fuel : nat) (opts : dict) (w : world) (logFile out : val) (e : error) :
  assertLogsPath E (getSetting E "logFile" opts) = inr logFile ->
  openSync E logFile "a" = inr out ->
  spawn E "node" (fst (child_args E opts logFile)) = inl e ->
  exists w' : world,
    start E fuel opts w = Done (Rejected e) w'
    /\ w_status w' = w_status w
    /\ w_attempts w' = w_attempts w
    /\ w_trace w' =
         (w_trace w ++ snd (child_args E opts logFile)
          ++ [fs_openSync logFile "a";
              child_spawn "node" (fst (child_args E opts logFile))])%list.
Proof.
  intros Hlog Hopen Hspawn.
  unfold start, then1, then2. rewrite Hlog.
  destruct (child_args E opts logFile) as [args printed] eqn:Hargs.
  simpl in Hspawn. rewrite Hopen, Hspawn. simpl.
  eexists. split; [reflexivity |]. simpl.
  split; [reflexivity |]. split; [reflexivity |].
  rewrite <- !app_assoc. reflexivity.
Qed.

(** [start] rejects in the same way, with the store untouched, when the logs
    directory or the log file cannot be had. *)
Lemma start_rejects_before_record_on_log_failure
    (fuel : nat) (opts : dict) (w : world) (e : error) :
  assertLogsPath E (getSetting E "logFile" opts) = inl e
  \/ (exists logFile, assertLogsPath E (getSetting E "logFile" opts) = inr logFile
                      /\ openSync E logFile "a" = inl e) ->
  exists w' : world,
    start E fuel opts w = Done (Rejected e) w' /\ w_status w' = w_status w.
Proof.
  intros [Hlog | (logFile & Hlog & Hopen)]; unfold start, then1, then2; rewrite Hlog.
  - simpl. eexists. split; reflexivity.
  - destruct (child_args E opts logFile) as [args printed].
    rewrite Hopen. simpl. eexists. split; reflexivity.
Qed.

Lemma testConnection_outcome (opts : dict) (w : world) :
  testConnection E opts w =
    (match probe_outcome E opts w with
     | None => Resolved tt
     | Some e => Rejected e
     end, probed E opts w).
Proof.
  unfold testConnection, probed, probe_outcome, probe_port, probe_host.
  destruct (connect E _ _ _) eqn:Hc; rewrite ?Hc; reflexivity.
Qed.

(** C5, as the code has it.  [status] makes one TCP probe and nothing else:
    it never throws, never rejects and never stays pending, the trace grows by
    the one connection attempt (no HTTP request is issued) and the store is
    left as it was.  When the probe connects, the report is
    [{state: RUNNING, metadata}] with [metadata] the whole persisted Status
    Record ([store.status.all]); when it fails with [err], the report is
    [{state: STOPPED, error: err}]. *)
Theorem status_reports_probe_and_record (opts : dict) (w : world) :
  exists (rep : report) (w' : world),
    status E opts w = Done (Resolved rep) w'
    /\ w_trace w' =
         (w_trace w
          ++ [net_connect (probe_port E opts w) (probe_host E opts w) (probe_outcome E opts w)])%list
    /\ (forall url o, ~ In (got_request url o) (drop (List.length (w_trace w)) (w_trace w')))
    /\ w_status w' = w_status w
    /\ match probe_outcome E opts w with
       | None => rep = {| state := RUNNING; metadata := Some (w_status w); error_of := None |}
       | Some err => rep = {| state := STOPPED; metadata := None; error_of := Some err |}
       end.
Proof.
  unfold status, then2, lift. rewrite testConnection_outcome. simpl.
  destruct (probe_outcome E opts w) as [err |] eqn:Hp; simpl;
    eexists; eexists; (split; [reflexivity |]); simpl; rewrite ?Hp;
    (split; [reflexivity |]); (split; [| split; reflexivity]);
    intros url o; rewrite drop_app_length; simpl; intros [Hf | []]; discriminate.
Qed.

End Lifecycle.

(** *** The readiness poll *)

Section Polling.
Context `{Runtime} (E : env).

Lemma poll_unfold retry expired fuel opts i w :
  poll E retry expired fuel opts i w =
    let i := if negb (truthy i) then initial_count opts else i in
    if retry (probe_outcome E opts w) then
      if leb (to_number (decremented i)) (Fin 0) then
        Done (Rejected expired) (probed E opts w)
      else
        match fuel with
        | O => Pending (decremented i) (round E opts w)
        | S fuel' => poll E retry expired fuel' opts (decremented i) (round E opts w)
        end
    else Done (Resolved tt) (probed E opts w).
Proof. destruct fuel; reflexivity. Qed.

Lemma callback_poll retry expired fuel :
  forall opts i w,
    callback (poll E retry expired fuel opts i w) = poll E retry expired fuel opts i w.
Proof.
  induction fuel as [| fuel IH]; intros opts i w; rewrite poll_unfold; cbv zeta;
    destruct (retry _); try reflexivity; destruct (leb _ _); try reflexivity.
  apply IH.
Qed.

Lemma _waitForStart_poll fuel :
  forall opts i w,
    _waitForStart E fuel opts i w = poll E down start_timeout fuel opts i w.
Proof.
  induction fuel as [| fuel IH]; intros opts i w; rewrite poll_unfold;
    cbn [_waitForStart]; unfold catch, then2, lift;
    rewrite testConnection_outcome; cbn [fst snd]; cbv zeta;
    fold (initial_count opts);
    destruct (probe_outcome E opts w) as [e |]; cbn [down callback]; try reflexivity;
    unfold decremented;
    destruct (leb _ _); try reflexivity.
  cbn [callback]. rewrite IH. apply callback_poll.
Qed.

Lemma _waitForStop_poll fuel :
  forall opts i w,
    _waitForStop E fuel opts i w = poll E up stop_timeout fuel opts i w.
Proof.
  induction fuel as [| fuel IH]; intros opts i w; rewrite poll_unfold;
    cbn [_waitForStop]; unfold then2, lift;
    rewrite testConnection_outcome; cbn [fst snd]; cbv zeta;
    fold (initial_count opts);
    destruct (probe_outcome E opts w) as [e |]; cbn [up down negb callback];
    try reflexivity;
    unfold decremented;
    destruct (leb _ _); try reflexivity.
  cbn [callback]. rewrite IH. apply callback_poll.
Qed.

End Polling.

(** *** Arithmetic of the poll counter *)

Section Arithmetic.

Lemma Qred_integer (z : Z) : Qred (inject_Z z) = inject_Z z.
Proof.
  unfold inject_Z, Qred.
  pose proof (Z.ggcd_gcd z 1) as Hg. rewrite Z.gcd_1_r in Hg.
  pose proof (Z.ggcd_correct_divisors z 1) as Hd.
  destruct (Z.ggcd z 1) as (g, (a, b)). cbn [fst snd] in *. subst g.
  destruct Hd as [Ha Hb]. rewrite Z.mul_1_l in Ha, Hb. subst a b. reflexivity.
Qed.

(** The integers up to [2^53] are doubles: rounding leaves them as they
    are. *)
Lemma nearest_positive_integer (z : Z) :
  (0 < z <= 2 ^ 53)%Z -> nearest_positive (inject_Z z) = Fin (inject_Z z).
Proof.
  intros [Hpos Hle]. unfold nearest_positive. cbn [Qnum Qden inject_Z].
  change (Z.log2 1) with 0%Z. rewrite Z.sub_0_r.
  pose proof (Z.log2_nonneg z) as He0.
  destruct (Z.log2_spec z Hpos) as [Hlo Hhi].
  assert (He53 : (Z.log2 z <= 53)%Z).
  { change 53%Z with (Z.log2 (2 ^ 53)). apply Z.log2_le_mono. exact Hle. }
  cbv zeta.
  destruct (Z.leb_spec 0 (Z.log2 z)) as [_ | Hneg]; [| lia].
  rewrite Z.mul_1_l.
  destruct (Z.ltb_spec z (2 ^ Z.log2 z)) as [Hlt | _]; [lia |].
  destruct (Z.leb_spec 1024 (Z.log2 z)) as [Hbig | _]; [lia |].
  rewrite Z.max_l by lia.
  destruct (Z.eqb_spec (Z.log2 z) 1023) as [H1023 | _]; [lia |]. cbn [andb].
  destruct (Z.leb_spec (Z.log2 z - 52) 0) as [Hp | Hp].
  - assert (Hk : (0 < 2 ^ (- (Z.log2 z - 52)))%Z) by (apply Z.pow_pos_nonneg; lia).
    rewrite Z.div_1_r, Z.mod_1_r. change (2 * 0 <? 1)%Z with true. cbv iota.
    f_equal. rewrite <- Qred_integer. apply Qred_complete.
    unfold Qeq. cbn [Qnum Qden inject_Z]. rewrite Z2Pos.id by exact Hk. ring.
  - assert (He : Z.log2 z = 53%Z) by lia.
    assert (Hz : z = (2 ^ 53)%Z).
    { rewrite He in Hlo. lia. }
    subst z. rewrite He. reflexivity.
Qed.

Lemma round64_integer (q : Q) (z : Z) :
  (q == inject_Z z)%Q -> (Z.abs z <= 2 ^ 53)%Z -> round64 q = Fin (inject_Z z).
Proof.
  intros Hq Hz. unfold round64.
  rewrite (Qred_complete _ _ Hq), Qred_integer. cbn [Qnum inject_Z].
  destruct (Z.compare_spec z 0) as [-> | Hlt | Hgt].
  - reflexivity.
  - change (neg (nearest_positive (inject_Z (- z))) = Fin (inject_Z z)).
    rewrite nearest_positive_integer by lia.
    cbn [neg]. unfold inject_Z, Qopp. cbn [Qnum Qden]. rewrite Z.opp_involutive. reflexivity.
  - apply nearest_positive_integer. lia.
Qed.

Lemma nearest_positive_sign (q : Q) :
  (0 < Qnum q)%Z -> leb (Fin 0) (nearest_positive q) = true.
Proof.
  intros Hn. unfold nearest_positive. cbv zeta.
  match goal with |- context [(1024 <=? ?x)%Z] => set (e := x) end.
  destruct (1024 <=? e)%Z; [reflexivity |].
  set (p := Z.max (e - 52) (-1074)).
  set (sn := if (p <=? 0)%Z then (Qnum q * 2 ^ (- p))%Z else Qnum q).
  set (sd := if (p <=? 0)%Z then Z.pos (Qden q) else (Z.pos (Qden q) * 2 ^ p)%Z).
  assert (Hsn : (0 <= sn)%Z).
  { subst sn. destruct (p <=? 0)%Z; [| lia].
    apply Z.mul_nonneg_nonneg; [lia | apply Z.pow_nonneg; lia]. }
  assert (Hsd : (0 < sd)%Z).
  { subst sd. destruct (Z.leb_spec p 0); [lia |].
    apply Z.mul_pos_pos; [lia | apply Z.pow_pos_nonneg; lia]. }
  assert (Hfl : (0 <= sn / sd)%Z) by (apply Z.div_pos; assumption).
  match goal with |- context [(2 ^ 53 <=? ?x)%Z] => set (m := x) end.
  assert (Hm : (0 <= m)%Z).
  { subst m. repeat match goal with |- context [if ?b then _ else _] => destruct b end; lia. }
  destruct ((e =? 1023)%Z && (2 ^ 53 <=? m)%Z); [reflexivity |].
  destruct (Z.leb_spec p 0) as [Hp | Hp]; cbn [leb]; apply Qle_bool_iff.
  - rewrite Qred_correct. unfold Qle. cbn [Qnum Qden]. lia.
  - change 0%Q with (inject_Z 0). rewrite <- Zle_Qle.
    apply Z.mul_nonneg_nonneg; [lia | apply Z.pow_nonneg; lia].
Qed.

Lemma leb_neg (a : number) : leb (Fin 0) a = true -> leb (neg a) (Fin 0) = true.
Proof.
  destruct a as [| | | q]; cbn [leb neg]; try (intros; congruence || reflexivity).
  rewrite !Qle_bool_iff. intros Hq. lra.
Qed.

(** The rounding of a number that is not positive is not positive. *)
Lemma round64_nonpos (q : Q) : (q <= 0)%Q -> leb (round64 q) (Fin 0) = true.
Proof.
  intros Hq. unfold round64.
  pose proof (Qred_correct q) as Hr. set (r := Qred q) in *.
  destruct (Z.compare_spec (Qnum r) 0) as [Heq | Hlt | Hgt].
  - reflexivity.
  - apply leb_neg, nearest_positive_sign. destruct r as [n d]. cbn in *. lia.
  - exfalso. assert (Hpos : (0 < r)%Q) by (unfold Qlt; cbn; lia). lra.
Qed.

Lemma sub_nonpos (a : number) : leb a (Fin 0) = true -> leb (sub a (Fin 1)) (Fin 0) = true.
Proof.
  destruct a as [| | | q]; cbn [leb sub]; try (intros; congruence || reflexivity).
  rewrite Qle_bool_iff. intros Hq. apply round64_nonpos. lra.
Qed.

Lemma div_500_nonpos (a : number) :
  leb a (Fin 0) = true -> leb (div a (Fin 500)) (Fin 0) = true.
Proof.
  destruct a as [| | | t]; cbn [leb]; try (intros; congruence || reflexivity).
  rewrite Qle_bool_iff. intros Ht. cbn. apply round64_nonpos.
  apply Qle_shift_div_r; lra.
Qed.

Lemma sub_integer (m : Z) :
  (- 2 ^ 53 < m <= 2 ^ 53)%Z -> sub (Fin (inject_Z m)) (Fin 1) = Fin (inject_Z (m - 1)).
Proof.
  intros Hm. cbn [sub]. apply round64_integer; [| lia].
  unfold Z.sub. rewrite inject_Z_plus. reflexivity.
Qed.

Lemma div_500_multiple (t : Q) (m : Z) :
  (t == 500 * inject_Z m)%Q -> (Z.abs m <= 2 ^ 53)%Z ->
  div (Fin t) (Fin 500) = Fin (inject_Z m).
Proof.
  intros Ht Hm. cbn. apply round64_integer; [| exact Hm].
  rewrite Ht. field.
Qed.

End Arithmetic.

(** *** The polls, round by round *)

Section PollingFacts.
Context `{Runtime} (E : env).

Lemma rounds_succ_r (n : nat) (opts : dict) (w : world) :
  rounds E (S n) opts w = rounds E n opts (round E opts w).
Proof. unfold rounds. apply Nat.iter_succ_r. Qed.

(** Polling changes neither the store nor, therefore, the address probed. *)
Lemma rounds_frame (n : nat) (opts : dict) (w : world) :
  w_status (rounds E n opts w) = w_status w
  /\ w_attempts (rounds E n opts w) = (w_attempts w + n)%nat
  /\ probe_host E opts (rounds E n opts w) = probe_host E opts w
  /\ probe_port E opts (rounds E n opts w) = probe_port E opts w.
Proof.
  induction n as [| n (Hs & Ha & Hh & Hp)].
  - repeat split; simpl; lia.
  - change (rounds E (S n) opts w) with (round E opts (rounds E n opts w)).
    set (wn := rounds E n opts w) in *.
    split; [exact Hs |].
    split; [change (w_attempts (round E opts wn)) with (S (w_attempts wn)); lia |].
    split; [exact Hh | exact Hp].
Qed.

(** What each further round adds to the trace: the probe and the timer of one
    poll interval. *)
Lemma rounds_trace (n : nat) (opts : dict) (w : world) :
  w_trace (rounds E (S n) opts w) =
    (w_trace (rounds E n opts w)
     ++ [net_connect (probe_port E opts w) (probe_host E opts w)
           (connect E (w_attempts w + n) (probe_port E opts w) (probe_host E opts w));
         setTimeout (Fin 500)])%list.
Proof.
  destruct (rounds_frame n opts w) as (Hs & Ha & Hh & Hp).
  change (rounds E (S n) opts w) with (round E opts (rounds E n opts w)).
  set (wn := rounds E n opts w) in *.
  unfold round, probed, emit. cbn [w_trace]. unfold probe_outcome.
  rewrite Hh, Hp, Ha, <- app_assoc. reflexivity.
Qed.

Lemma count_down (m : Z) :
  (- 2 ^ 53 < m <= 2 ^ 53)%Z -> decremented (count m) = count (m - 1).
Proof.
  intros Hm. unfold decremented, count. cbn [to_number].
  rewrite sub_integer by exact Hm. reflexivity.
Qed.

Lemma used_up_count (m : Z) : used_up (count m) = (m <=? 0)%Z.
Proof.
  unfold used_up, count. cbn [to_number leb].
  destruct (Z.leb_spec m 0) as [Hm | Hm].
  - apply Qle_bool_iff. change 0%Q with (inject_Z 0). rewrite <- Zle_Qle. exact Hm.
  - destruct (Qle_bool (inject_Z m) 0) eqn:Hle; [| reflexivity].
    apply Qle_bool_iff in Hle. change 0%Q with (inject_Z 0) in Hle.
    rewrite <- Zle_Qle in Hle. lia.
Qed.

(** A timeout of [m] whole poll intervals starts the counter at [m]. *)
Lemma initial_count_whole (opts : dict) (t : Q) (m : Z) :
  to_number (opts !!! "timeout") = Fin t ->
  (t == 500 * inject_Z m)%Q -> (Z.abs m <= 2 ^ 53)%Z ->
  initial_count opts = count m.
Proof.
  unfold initial_count, count, TIMEOUT_POLL_INCREMENT. intros -> Ht Hm.
  rewrite (div_500_multiple t m Ht Hm). reflexivity.
Qed.

Lemma countdown_S (opts : dict) (k : nat) :
  countdown opts (S k) = decremented (countdown opts k).
Proof. reflexivity. Qed.

(** A timeout of [m] whole poll intervals counts down through the whole
    numbers, as long as they are above [- 2^53]. *)
Lemma countdown_whole (opts : dict) (t : Q) (m : Z) :
  to_number (opts !!! "timeout") = Fin t ->
  (t == 500 * inject_Z m)%Q -> (m <= 2 ^ 53)%Z ->
  forall k : nat, (- 2 ^ 53 <= m - Z.of_nat k)%Z -> countdown opts k = count (m - Z.of_nat k).
Proof.
  intros Ht Hm Hhi. induction k as [| k IH]; intros Hlo.
  - change (countdown opts 0) with (initial_count opts).
    rewrite (initial_count_whole opts t m Ht Hm) by lia.
    f_equal. lia.
  - rewrite countdown_S, IH by lia. rewrite count_down by lia. f_equal. lia.
Qed.

(** Such a timeout is used up by the [m]-th decrement, and by the first one
    when [m] is zero or negative. *)
Lemma whole_timeout_expires (opts : dict) (t : Q) (m : Z) :
  to_number (opts !!! "timeout") = Fin t ->
  (t == 500 * inject_Z m)%Q -> (- 2 ^ 53 < m <= 2 ^ 53)%Z ->
  expires_after opts (rounds_allowed m).
Proof.
  intros Ht Hm Hrange. unfold rounds_allowed. split.
  - intros k Hk. rewrite (countdown_whole opts t m Ht Hm) by lia.
    rewrite used_up_count. apply Z.leb_gt. lia.
  - rewrite (countdown_whole opts t m Ht Hm) by lia.
    rewrite used_up_count. apply Z.leb_le. lia.
Qed.

Lemma round64_not_NaN (q : Q) : round64 q <> NaN.
Proof.
  assert (Hpos : forall x, nearest_positive x <> NaN).
  { intros x. unfold nearest_positive. cbv zeta.
    repeat match goal with |- context [if ?b then _ else _] => destruct b end; discriminate. }
  unfold round64. cbv zeta. destruct (_ ?= _)%Z; [discriminate | | apply Hpos].
  specialize (Hpos (- Qred q)%Q). destruct (nearest_positive _); cbn [neg]; congruence.
Qed.

Lemma sub_NaN (a : number) : sub a (Fin 1) = NaN -> a = NaN.
Proof.
  destruct a as [| | | q]; cbn [sub]; try congruence.
  intros Hq. exfalso. exact (round64_not_NaN _ Hq).
Qed.

Lemma countdown_number (opts : dict) (k : nat) : exists a, countdown opts k = VNum a.
Proof. destruct k; eexists; reflexivity. Qed.

(** A counter that is NaN was NaN from the start. *)
Lemma countdown_NaN (opts : dict) (k : nat) :
  countdown opts k = VNum NaN -> initial_count opts = VNum NaN.
Proof.
  induction k as [| k IH]; [auto |].
  rewrite countdown_S. destruct (countdown_number opts k) as (a & Ha).
  rewrite Ha in *. unfold decremented. cbn [to_number].
  intros [= Hsub]. apply sub_NaN in Hsub. subst a. apply IH. reflexivity.
Qed.

(** A counter that is not used up is handed on as it is: the test [!i] of
    the next call either lets it through or, when it is NaN, computes NaN
    again. *)
Lemma counter_kept (opts : dict) (k : nat) :
  used_up (countdown opts k) = false ->
  (if negb (truthy (countdown opts k)) then initial_count opts else countdown opts k)
  = countdown opts k.
Proof.
  intros Hleft. destruct (countdown_number opts k) as (a & Ha).
  destruct (truthy (countdown opts k)) eqn:Ht; [reflexivity |]. cbn [negb].
  rewrite Ha in Ht, Hleft. unfold used_up in Hleft. cbn [to_number] in Hleft.
  destruct a as [| | | q]; cbn [truthy leb] in Ht, Hleft; try discriminate.
  - rewrite Ha. apply (countdown_NaN opts k Ha).
  - apply negb_false_iff, Qeq_bool_iff in Ht.
    assert (Hle : Qle_bool q 0 = true) by (apply Qle_bool_iff; rewrite Ht; apply Qle_refl).
    congruence.
Qed.

Lemma resolved_after_terminal_probe retry expired fuel :
  forall opts i w w',
    poll E retry expired fuel opts i w = Done (Resolved tt) w' ->
    exists w0 : world, w' = probed E opts w0 /\ retry (probe_outcome E opts w0) = false.
Proof.
  induction fuel as [| fuel IH]; intros opts i w w'; rewrite poll_unfold; cbv zeta;
    destruct (retry (probe_outcome E opts w)) eqn:Hr;
    try (intros [= <-]; eauto);
    destruct (leb _ _); try discriminate.
  apply IH.
Qed.

Section Unending.
Variables (retry : option error -> bool) (expired : error).
Hypothesis keeps_going : forall n port host, retry (connect E n port host) = true.

Lemma retry_probe (opts : dict) (w : world) : retry (probe_outcome E opts w) = true.
Proof. apply keeps_going. Qed.

(** A counter that is NaN or +Infinity is never used up. *)
Lemma poll_stuck (c : number) (opts : dict) :
  c = NaN \/ c = PInf ->
  to_number (opts !!! "timeout") = c ->
  forall fuel i w,
    truthy i = false \/ i = VNum c ->
    poll E retry expired fuel opts i w = Pending (VNum c) (rounds E (S fuel) opts w).
Proof.
  intros Hc Ht.
  assert (Hinit : initial_count opts = VNum c).
  { unfold initial_count. rewrite Ht. destruct Hc as [-> | ->]; reflexivity. }
  assert (Hi : forall i, truthy i = false \/ i = VNum c ->
                         (if negb (truthy i) then initial_count opts else i) = VNum c).
  { intros i [Hf | ->].
    - rewrite Hf. exact Hinit.
    - destruct (negb (truthy (VNum c))); [exact Hinit | reflexivity]. }
  assert (Hdec : decremented (VNum c) = VNum c)
    by (destruct Hc as [-> | ->]; reflexivity).
  assert (Hle : leb (to_number (VNum c)) (Fin 0) = false)
    by (destruct Hc as [-> | ->]; reflexivity).
  induction fuel as [| fuel IH]; intros i w Hiw; rewrite poll_unfold; cbv zeta;
    rewrite (Hi i Hiw), retry_probe, Hdec, Hle.
  - reflexivity.
  - rewrite IH by (right; reflexivity).
    rewrite (rounds_succ_r (S fuel)). reflexivity.
Qed.

(** A poll started without a counter gives up at its first probe when
    [opts.timeout] is zero or negative ([opts.timeout <= 0]). *)
Lemma poll_gives_up_at_once (opts : dict) :
  leb (to_number (opts !!! "timeout")) (Fin 0) = true ->
  forall (fuel : nat) (i : val) (w : world),
    truthy i = false ->
    poll E retry expired fuel opts i w = Done (Rejected expired) (probed E opts w).
Proof.
  intros Hle fuel i w Hi.
  rewrite poll_unfold; cbv zeta. rewrite Hi, retry_probe. cbn [negb].
  unfold initial_count, decremented, TIMEOUT_POLL_INCREMENT. cbn [to_number].
  rewrite sub_nonpos by (apply div_500_nonpos; exact Hle).
  reflexivity.
Qed.

(** While the probe keeps reporting the state that is waited out, a poll
    follows its counter: it gives up at the probe after which the counter is
    used up, [n] rounds later when that is the first such decrement. *)
Lemma poll_counts_down (opts : dict) (n : nat) :
  forall (j fuel : nat) (i : val) (w : world),
    (if negb (truthy i) then initial_count opts else i) = countdown opts j ->
    (forall k, (j < k <= j + n)%nat -> used_up (countdown opts k) = false) ->
    used_up (countdown opts (S (j + n))) = true ->
    (n <= fuel)%nat ->
    poll E retry expired fuel opts i w =
      Done (Rejected expired) (probed E opts (rounds E n opts w)).
Proof.
  induction n as [| n IH]; intros j fuel i w Hi Hbefore Hat Hfuel;
    rewrite poll_unfold; cbv zeta; rewrite Hi, retry_probe, <- countdown_S.
  - replace (j + 0)%nat with j in Hat by lia. unfold used_up in Hat. rewrite Hat.
    reflexivity.
  - assert (Hnext : used_up (countdown opts (S j)) = false) by (apply Hbefore; lia).
    unfold used_up in Hnext. rewrite Hnext.
    destruct fuel as [| fuel]; [lia |].
    rewrite (IH (S j) fuel (countdown opts (S j)) (round E opts w)).
    + rewrite rounds_succ_r. reflexivity.
    + apply counter_kept. exact Hnext.
    + intros k Hk. apply Hbefore. lia.
    + replace (S j + n)%nat with (j + S n)%nat by lia. exact Hat.
    + lia.
Qed.

(** And it is pending as long as the counter is not used up, with the
    counter lowered once per round. *)
Lemma poll_still_counting (opts : dict) (fuel : nat) :
  forall (j : nat) (i : val) (w : world),
    (if negb (truthy i) then initial_count opts else i) = countdown opts j ->
    (forall k, (j < k <= S (j + fuel))%nat -> used_up (countdown opts k) = false) ->
    poll E retry expired fuel opts i w =
      Pending (countdown opts (S (j + fuel))) (rounds E (S fuel) opts w).
Proof.
  induction fuel as [| fuel IH]; intros j i w Hi Hbefore;
    rewrite poll_unfold; cbv zeta; rewrite Hi, retry_probe, <- countdown_S;
    (assert (Hnext : used_up (countdown opts (S j)) = false) by (apply Hbefore; lia));
    unfold used_up in Hnext; rewrite Hnext.
  - replace (j + 0)%nat with j by lia. reflexivity.
  - rewrite (IH (S j) (countdown opts (S j)) (round E opts w)).
    + rewrite (rounds_succ_r (S fuel)).
      replace (S j + fuel)%nat with (j + S fuel)%nat by lia. reflexivity.
    + apply counter_kept. exact Hnext.
    + intros k Hk. apply Hbefore. lia.
Qed.

(** A poll started without a counter gives up at the probe that follows [n]
    rounds when the counter expires after [n] rounds. *)
Lemma poll_times_out (opts : dict) (n : nat) :
  expires_after opts n ->
  forall (fuel : nat) (i : val) (w : world),
    (n <= fuel)%nat ->
    truthy i = false ->
    poll E retry expired fuel opts i w =
      Done (Rejected expired) (probed E opts (rounds E n opts w)).
Proof.
  intros [Hbefore Hat] fuel i w Hfuel Hi.
  apply (poll_counts_down opts n 0 fuel i w);
    [rewrite Hi; reflexivity | intros k Hk; apply Hbefore; lia | exact Hat | exact Hfuel].
Qed.

(** It is pending before that, and for ever when the counter never
    expires. *)
Lemma poll_pending_initial (opts : dict) (fuel : nat) (i : val) (w : world) :
  truthy i = false ->
  (forall k, (1 <= k <= S fuel)%nat -> used_up (countdown opts k) = false) ->
  poll E retry expired fuel opts i w =
    Pending (countdown opts (S fuel)) (rounds E (S fuel) opts w).
Proof.
  intros Hi Hbefore.
  apply (poll_still_counting opts fuel 0 i w).
  - rewrite Hi. reflexivity.
  - intros k Hk. apply Hbefore. lia.
Qed.

(** A poll that ended with its timeout error used its counter up. *)
Lemma poll_rejects_only_when_used_up (opts : dict) (fuel : nat) :
  forall (j : nat) (i : val) (w : world) (e : error) (w' : world),
    (if negb (truthy i) then initial_count opts else i) = countdown opts j ->
    poll E retry expired fuel opts i w = Done (Rejected e) w' ->
    exists k, (j < k <= S (j + fuel))%nat /\ used_up (countdown opts k) = true.
Proof.
  induction fuel as [| fuel IH]; intros j i w e w' Hi;
    rewrite poll_unfold; cbv zeta; rewrite Hi, retry_probe, <- countdown_S;
    destruct (leb (to_number (countdown opts (S j))) (Fin 0)) eqn:Hnext;
    try discriminate;
    try (intros _; exists (S j); split; [lia | exact Hnext]).
  intros Hrun.
  destruct (IH (S j) (countdown opts (S j)) (round E opts w) e w') as (k & Hk & Hused);
    [apply counter_kept; exact Hnext | exact Hrun |].
  exists k. split; [lia | exact Hused].
Qed.

End Unending.

End PollingFacts.

(** *** [start] and the two polls *)

Section Readiness.
Context `{Runtime} (E : env).

Lemma start_since_spawn (fuel : nat) (opts : dict) (w : world) (logFile out pid : val) :
  assertLogsPath E (getSetting E "logFile" opts) = inr logFile ->
  openSync E logFile "a" = inr out ->
  spawn E "node" (fst (child_args E opts logFile)) = inr pid ->
  start E fuel opts w =
    match spawn_error E "node" (fst (child_args E opts logFile)) with
    | Some e => Crashed e (launched E opts logFile pid w)
    | None => poll E down start_timeout fuel opts VUndef (launched E opts logFile pid w)
    end.
Proof.
  intros Hlog Hopen Hspawn.
  unfold start, then1, then2. rewrite Hlog.
  unfold launched.
  destruct (child_args E opts logFile) as [args printed] eqn:Hargs.
  cbn [fst snd] in *. rewrite Hopen, Hspawn.
  destruct (spawn_error E "node" args) as [e |].
  - cbn [callback]. f_equal.
    unfold emit, emit_all, status_set, status_set_all, settings_record.
    cbn [w_status w_attempts w_trace].
    f_equal. rewrite <- !app_assoc. reflexivity.
  - rewrite _waitForStart_poll, callback_poll.
    f_equal. unfold emit, emit_all, status_set, status_set_all, settings_record.
    cbn [w_status w_attempts w_trace].
    f_equal. rewrite <- !app_assoc. reflexivity.
Qed.

Lemma start_launches (fuel : nat) (opts : dict) (w : world) (logFile out pid : val) :
  assertLogsPath E (getSetting E "logFile" opts) = inr logFile ->
  openSync E logFile "a" = inr out ->
  spawn E "node" (fst (child_args E opts logFile)) = inr pid ->
  spawn_error E "node" (fst (child_args E opts logFile)) = None ->
  start E fuel opts w = poll E down start_timeout fuel opts VUndef (launched E opts logFile pid w).
Proof.
  intros Hlog Hopen Hspawn Hlive.
  rewrite (start_since_spawn fuel opts w logFile out pid Hlog Hopen Hspawn), Hlive.
  reflexivity.
Qed.

Lemma start_settles_without_spawn (fuel : nat) (opts : dict) (w : world) :
  (forall logFile out pid,
     assertLogsPath E (getSetting E "logFile" opts) = inr logFile ->
     openSync E logFile "a" = inr out ->
     spawn E "node" (fst (child_args E opts logFile)) = inr pid -> False) ->
  exists e w', start E fuel opts w = Done (Rejected e) w'.
Proof.
  intros Hno. unfold start, then1, then2.
  destruct (assertLogsPath E (getSetting E "logFile" opts)) as [e | logFile] eqn:Hlog;
    [cbn; eauto |].
  destruct (child_args E opts logFile) as [args printed] eqn:Hargs.
  destruct (openSync E logFile "a") as [e | out] eqn:Hopen; [cbn; eauto |].
  destruct (spawn E "node" args) as [e | pid] eqn:Hspawn; [cbn; eauto |].
  exfalso. eapply (Hno logFile out pid); try reflexivity; try eassumption.
  rewrite Hargs. exact Hspawn.
Qed.

(** C1, as the code has it.  [start] resolves only after a probe has
    succeeded: whenever its promise resolves, the last effect is a connection
    attempt that succeeded.  When the child was spawned and every probe
    fails, [start] follows its counter, which starts at [opts.timeout / 500]
    and is decremented after each failed probe: if the decrement that
    follows the [n]-th round is the first to leave the counter [<= 0],
    [start] is still pending after fewer rounds, with the counter lowered
    once per round, and rejects with the start-timeout error at the probe
    that follows the [n]-th round; each round is one failed probe followed by
    a timer of 500 ms; and if no decrement leaves the counter [<= 0], [start]
    is pending for ever.  When [opts.timeout] is a whole number [m] of poll
    intervals ([500 * m] with [1 <= m <= 2^53]) the counter starts at [m], is
    [m - k] after [k] decrements and is used up by the [m]-th, when it is
    zero: [start] rejects at the [m]-th probe. *)
Theorem start_resolves_only_when_up_or_times_out (opts : dict) (w : world) :
  (forall (fuel : nat) (w' : world),
     start E fuel opts w = Done (Resolved tt) w' ->
     exists tr port host, w_trace w' = (tr ++ [net_connect port host None])%list)
  /\ (forall (logFile out pid : val),
        assertLogsPath E (getSetting E "logFile" opts) = inr logFile ->
        openSync E logFile "a" = inr out ->
        spawn E "node" (fst (child_args E opts logFile)) = inr pid ->
        spawn_error E "node" (fst (child_args E opts logFile)) = None ->
        (forall k port host, connect E k port host <> None) ->
        let w0 := launched E opts logFile pid w in
        (forall n, expires_after opts n ->
           (forall fuel, (n <= fuel)%nat ->
              start E fuel opts w =
                Done (Rejected start_timeout) (probed E opts (rounds E n opts w0)))
           /\ (forall fuel, (fuel < n)%nat ->
                 start E fuel opts w =
                   Pending (countdown opts (S fuel)) (rounds E (S fuel) opts w0)))
        /\ (never_expires opts ->
            forall fuel,
              start E fuel opts w =
                Pending (countdown opts (S fuel)) (rounds E (S fuel) opts w0))
        /\ (forall k,
              w_trace (rounds E (S k) opts w0) =
                (w_trace (rounds E k opts w0)
                 ++ [net_connect (probe_port E opts w0) (probe_host E opts w0)
                       (connect E (w_attempts w0 + k)
                          (probe_port E opts w0) (probe_host E opts w0));
                     setTimeout (Fin 500)])%list))
  /\ (forall (t : Q) (m : Z),
        to_number (opts !!! "timeout") = Fin t ->
        (t == 500 * inject_Z m)%Q ->
        (1 <= m <= 2 ^ 53)%Z ->
        initial_count opts = count m
        /\ (forall k : nat, (Z.of_nat k <= m)%Z -> countdown opts k = count (m - Z.of_nat k))
        /\ expires_after opts (rounds_allowed m)
        /\ Z.of_nat (S (rounds_allowed m)) = m).
Proof.
  split; [| split].
  - intros fuel w' Hrun.
    destruct (assertLogsPath E (getSetting E "logFile" opts)) as [e | logFile] eqn:Hlog.
    { destruct (start_settles_without_spawn fuel opts w) as (e' & w1 & Hrej);
        [intros; congruence | congruence]. }
    destruct (openSync E logFile "a") as [e | out] eqn:Hopen.
    { destruct (start_settles_without_spawn fuel opts w) as (e' & w1 & Hrej);
        [intros; congruence | congruence]. }
    destruct (spawn E "node" (fst (child_args E opts logFile))) as [e | pid] eqn:Hspawn.
    { destruct (start_settles_without_spawn fuel opts w) as (e' & w1 & Hrej);
        [intros; congruence | congruence]. }
    rewrite (start_since_spawn fuel opts w logFile out pid Hlog Hopen Hspawn) in Hrun.
    destruct (spawn_error E "node" (fst (child_args E opts logFile))); [discriminate |].
    apply resolved_after_terminal_probe in Hrun as (w0 & -> & Hterm).
    destruct (probe_outcome E opts w0) eqn:Hp; [discriminate |].
    exists (w_trace w0), (probe_port E opts w0), (probe_host E opts w0).
    unfold probed. cbn [w_trace]. rewrite Hp. reflexivity.
  - intros logFile out pid Hlog Hopen Hspawn Hlive Hdown w0.
    assert (Hretry : forall k port host, down (connect E k port host) = true).
    { intros k port host. specialize (Hdown k port host).
      destruct (connect E k port host); [reflexivity | congruence]. }
    split; [| split].
    + intros n Hn. split.
      * intros fuel Hfuel.
        rewrite (start_launches fuel opts w logFile out pid Hlog Hopen Hspawn Hlive).
        apply (poll_times_out E down start_timeout Hretry opts n Hn);
          [exact Hfuel | reflexivity].
      * intros fuel Hfuel.
        rewrite (start_launches fuel opts w logFile out pid Hlog Hopen Hspawn Hlive).
        apply (poll_pending_initial E down start_timeout Hretry opts fuel VUndef);
          [reflexivity |].
        intros k Hk. apply (proj1 Hn). lia.
    + intros Hnever fuel.
      rewrite (start_launches fuel opts w logFile out pid Hlog Hopen Hspawn Hlive).
      apply (poll_pending_initial E down start_timeout Hretry opts fuel VUndef);
        [reflexivity |].
      intros k Hk. apply Hnever. lia.
    + intros k. apply rounds_trace.
  - intros t m Ht Hm Hrange.
    split; [apply (initial_count_whole opts t m Ht Hm); lia |].
    split; [intros k Hk; apply (countdown_whole opts t m Ht Hm); lia |].
    split; [apply (whole_timeout_expires opts t m Ht Hm); lia |].
    unfold rounds_allowed. lia.
Qed.

End Readiness.

Section Termination.
Context `{Runtime} (E : env).
Variables (retry : option error -> bool) (expired : error).
Hypothesis keeps_going : forall n port host, retry (connect E n port host) = true.

Lemma isNaN_iff (v : val) : isNaN v = true <-> to_number v = NaN.
Proof. unfold isNaN. destruct (to_number v); split; congruence. Qed.

(** While the probe keeps reporting the state that is waited out, a poll
    started without a counter can end only if [opts.timeout] converts to a
    number, and to one other than +Infinity. *)
Lemma poll_ends_only_with_a_number (opts : dict) (w : world) :
  (exists fuel p w', poll E retry expired fuel opts VUndef w = Done p w') ->
  isNaN (opts !!! "timeout") = false /\ to_number (opts !!! "timeout") <> PInf.
Proof.
  intros (fuel & p & w' & Hrun). unfold isNaN.
  destruct (to_number (opts !!! "timeout")) as [| | | t] eqn:Ht;
    try (split; [reflexivity | discriminate]).
  - rewrite (poll_stuck E retry expired keeps_going NaN opts) in Hrun;
      auto; discriminate.
  - rewrite (poll_stuck E retry expired keeps_going PInf opts) in Hrun;
      auto; discriminate.
Qed.

End Termination.

Section Unbounded.
Context `{Runtime} (E : env).

(** C8, as the code has it.  When [opts.timeout] is undefined or does not
    convert to a number ([isNaN]), the counter of [_waitForStart(opts)] and of
    [_waitForStop(opts)] starts as NaN, stays NaN when decremented and never
    satisfies [i <= 0]: while the probe keeps failing (for the start poll) or
    succeeding (for the stop poll) the call is pending after any number of
    rounds, each round being one probe and one timer of 500 ms, and no
    timeout error is raised.  Under such a probe the poll ends only if
    [opts.timeout] converts to a number (and not to +Infinity); the number
    need not be positive: a timeout that is zero or negative, -Infinity
    included, raises the timeout error at the first probe. *)
Theorem poll_never_ends_without_numeric_timeout (opts : dict) (w : world) :
  (isNaN (opts !!! "timeout") = true ->
     initial_count opts = VNum NaN
     /\ decremented (VNum NaN) = VNum NaN
     /\ leb NaN (Fin 0) = false
     /\ ((forall k port host, connect E k port host <> None) ->
         forall fuel,
           _waitForStart E fuel opts VUndef w = Pending (VNum NaN) (rounds E (S fuel) opts w))
     /\ ((forall k port host, connect E k port host = None) ->
         forall fuel,
           _waitForStop E fuel opts VUndef w = Pending (VNum NaN) (rounds E (S fuel) opts w))
     /\ (forall k,
           w_trace (rounds E (S k) opts w) =
             (w_trace (rounds E k opts w)
              ++ [net_connect (probe_port E opts w) (probe_host E opts w)
                    (connect E (w_attempts w + k) (probe_port E opts w) (probe_host E opts w));
                  setTimeout (Fin 500)])%list))
  /\ ((forall k port host, connect E k port host <> None) ->
      ((exists fuel p w', _waitForStart E fuel opts VUndef w = Done p w') ->
       isNaN (opts !!! "timeout") = false /\ to_number (opts !!! "timeout") <> PInf)
      /\ (forall t, to_number (opts !!! "timeout") = Fin t -> (t <= 0)%Q ->
          forall fuel,
            _waitForStart E fuel opts VUndef w = Done (Rejected start_timeout) (probed E opts w))
      /\ (to_number (opts !!! "timeout") = NInf ->
          forall fuel,
            _waitForStart E fuel opts VUndef w = Done (Rejected start_timeout) (probed E opts w)))
  /\ ((forall k port host, connect E k port host = None) ->
      ((exists fuel p w', _waitForStop E fuel opts VUndef w = Done p w') ->
       isNaN (opts !!! "timeout") = false /\ to_number (opts !!! "timeout") <> PInf)
      /\ (forall t, to_number (opts !!! "timeout") = Fin t -> (t <= 0)%Q ->
          forall fuel,
            _waitForStop E fuel opts VUndef w = Done (Rejected stop_timeout) (probed E opts w))
      /\ (to_number (opts !!! "timeout") = NInf ->
          forall fuel,
            _waitForStop E fuel opts VUndef w = Done (Rejected stop_timeout) (probed E opts w))).
Proof.
  assert (Hdown : (forall k port host, connect E k port host <> None) ->
                  forall k port host, down (connect E k port host) = true).
  { intros Hd k port host. specialize (Hd k port host).
    destruct (connect E k port host); [reflexivity | congruence]. }
  assert (Hup : (forall k port host, connect E k port host = None) ->
                forall k port host, up (connect E k port host) = true).
  { intros Hu k port host. rewrite Hu. reflexivity. }
  split; [| split].
  - intros Hnan. apply isNaN_iff in Hnan.
    split; [unfold initial_count; rewrite Hnan; reflexivity |].
    split; [reflexivity |]. split; [reflexivity |].
    split; [| split].
    + intros Hd fuel. rewrite _waitForStart_poll.
      apply (poll_stuck E down start_timeout (Hdown Hd) NaN opts); auto.
    + intros Hu fuel. rewrite _waitForStop_poll.
      apply (poll_stuck E up stop_timeout (Hup Hu) NaN opts); auto.
    + intros k. apply rounds_trace.
  - intros Hd. split; [| split].
    + intros (fuel & p & w' & Hrun).
      apply (poll_ends_only_with_a_number E down start_timeout (Hdown Hd) opts w).
      exists fuel, p, w'. rewrite <- _waitForStart_poll. exact Hrun.
    + intros t Ht Hle fuel. rewrite _waitForStart_poll.
      apply (poll_gives_up_at_once E down start_timeout (Hdown Hd) opts);
        [| reflexivity].
      rewrite Ht. apply Qle_bool_iff. exact Hle.
    + intros Ht fuel. rewrite _waitForStart_poll.
      apply (poll_gives_up_at_once E down start_timeout (Hdown Hd) opts);
        [| reflexivity].
      rewrite Ht. reflexivity.
  - intros Hu. split; [| split].
    + intros (fuel & p & w' & Hrun).
      apply (poll_ends_only_with_a_number E up stop_timeout (Hup Hu) opts w).
      exists fuel, p, w'. rewrite <- _waitForStop_poll. exact Hrun.
    + intros t Ht Hle fuel. rewrite _waitForStop_poll.
      apply (poll_gives_up_at_once E up stop_timeout (Hup Hu) opts);
        [| reflexivity].
      rewrite Ht. apply Qle_bool_iff. exact Hle.
    + intros Ht fuel. rewrite _waitForStop_poll.
      apply (poll_gives_up_at_once E up stop_timeout (Hup Hu) opts);
        [| reflexivity].
      rewrite Ht. reflexivity.
Qed.

End Unbounded.

(** *** Graceful shutdown *)

Ltac dict_lookup :=
  repeat first
    [ rewrite lookup_total_insert_eq
    | rewrite lookup_total_insert_ne by discriminate
    | rewrite lookup_total_delete_ne by discriminate
    | rewrite lookup_total_empty ].

Section Shutdown.
Context `{Runtime} (E : env).

Lemma action_delete (opts : dict) (w : world) :
  _action E (inr (<["method" := VStr "DELETE"]>
                    (<["url" := VStr (getEmulatorRootUri E opts w)]>
                       (<["timeout" := VNum (Fin 5000)]> ∅)))) w =
    match got E (VStr (getEmulatorRootUri E opts w)) (shutdown_request E opts w) with
    | inl e => Done (Rejected e) (shutdown_requested E opts w)
    | inr response => Done (Resolved (prop "body" response)) (shutdown_requested E opts w)
    end.
Proof.
  unfold _action, shutdown_requested, shutdown_request. cbv zeta.
  dict_lookup.
  replace (truthy (VStr "DELETE")) with true by reflexivity.
  dict_lookup.
  replace (strict_eq (VStr "DELETE") (VStr "POST")) with false by reflexivity.
  cbn [andb]. dict_lookup.
  destruct (got E _ _); reflexivity.
Qed.

Lemma poll_not_threw retry expired fuel opts i w e w' :
  poll E retry expired fuel opts i w <> Threw e w'.
Proof.
  intros Hp. pose proof (callback_poll E retry expired fuel opts i w) as Hc.
  rewrite Hp in Hc. discriminate.
Qed.

Lemma stop_after_request (fuel : nat) (opts : dict) (w : world) :
  stop E fuel opts w =
    match got E (VStr (getEmulatorRootUri E opts w)) (shutdown_request E opts w) with
    | inl _ => Done (Resolved tt) (killed (shutdown_requested E opts w))
    | inr _ =>
        match poll E up stop_timeout fuel opts VUndef (shutdown_requested E opts w) with
        | Done _ w2 => Done (Resolved tt) (killed w2)
        | other => other
        end
    end.
Proof.
  unfold stop. rewrite action_delete.
  destruct (got E _ _) as [e | response].
  - unfold then1, then2, callback. rewrite kill_outcome. reflexivity.
  - unfold then1. cbn [then2]. rewrite _waitForStop_poll, callback_poll.
    destruct (poll E up stop_timeout fuel opts VUndef (shutdown_requested E opts w))
      as [e w2 | [[] | e] w2 | i w2 | e w2] eqn:Hpoll; cbn [then2 callback];
      rewrite ?kill_outcome; reflexivity.
Qed.

(** C2.  Every path of [stop] that ends, ends with [kill].  [stop] first
    issues the DELETE request to the root URI.  If the request fails, [kill]
    runs at once.  If it succeeds, [stop] waits for the stop confirmation, and
    when that wait resolves (the probe found the server down) or rejects with
    the stop-timeout, [kill] runs on the world the wait left; [stop] is pending
    only as long as the wait itself is.  So whenever the promise of [stop]
    settles it resolves, the last effect is the signal sent by [kill] and the
    Status Record is cleared.  The wait does end when the server is found
    down at the first probe, and when it stays up until the counter of the
    wait is used up. *)
Theorem stop_always_ends_with_kill (fuel : nat) (opts : dict) (w : world) :
  let uri := VStr (getEmulatorRootUri E opts w) in
  let request := shutdown_request E opts w in
  let w1 := shutdown_requested E opts w in
  request !!! "method" = VStr "DELETE"
  /\ request !!! "url" = uri
  /\ (forall e, got E uri request = inl e ->
        stop E fuel opts w = Done (Resolved tt) (killed w1))
  /\ (forall response, got E uri request = inr response ->
        (forall p w2, _waitForStop E fuel opts VUndef w1 = Done p w2 ->
                      stop E fuel opts w = Done (Resolved tt) (killed w2))
        /\ (forall i w2, _waitForStop E fuel opts VUndef w1 = Pending i w2 ->
                         stop E fuel opts w = Pending i w2))
  /\ (forall p w', stop E fuel opts w = Done p w' ->
        p = Resolved tt /\ w_status w' = ∅
        /\ exists tr pid, w_trace w' = (tr ++ [process_kill pid])%list)
  /\ (forall e w', stop E fuel opts w <> Threw e w')
  /\ (forall response, got E uri request = inr response ->
        probe_outcome E opts w1 <> None ->
        stop E fuel opts w = Done (Resolved tt) (killed (probed E opts w1)))
  /\ (forall response n, got E uri request = inr response ->
        (forall k port host, connect E k port host = None) ->
        expires_after opts n ->
        (n <= fuel)%nat ->
        stop E fuel opts w = Done (Resolved tt) (killed (probed E opts (rounds E n opts w1)))).
Proof.
  intros uri request w1. subst uri request w1.
  split; [unfold shutdown_request; dict_lookup; reflexivity |].
  split; [unfold shutdown_request; dict_lookup; reflexivity |].
  split; [intros e He; rewrite stop_after_request, He; reflexivity |].
  split.
  { intros response Hr. split.
    - intros p w2 Hw. rewrite stop_after_request, Hr.
      rewrite _waitForStop_poll in Hw. rewrite Hw. reflexivity.
    - intros i w2 Hw. rewrite stop_after_request, Hr.
      rewrite _waitForStop_poll in Hw. rewrite Hw. reflexivity. }
  split.
  { intros p w'. rewrite stop_after_request.
    destruct (got E _ _) as [e | response].
    - intros [= <- <-]. split; [reflexivity |]. split; [reflexivity |].
      eexists. eexists. reflexivity.
    - destruct (poll E up stop_timeout fuel opts VUndef (shutdown_requested E opts w))
        as [e w2 | q w2 | i w2 | e w2]; try discriminate.
      intros [= <- <-]. split; [reflexivity |]. split; [reflexivity |].
      eexists. eexists. reflexivity. }
  split.
  { intros e w'. rewrite stop_after_request.
    destruct (got E _ _) as [e' | response]; [discriminate |].
    destruct (poll E up stop_timeout fuel opts VUndef (shutdown_requested E opts w))
      as [e' w2 | q w2 | i w2 | e' w2] eqn:Hpoll; try discriminate.
    exfalso. exact (poll_not_threw _ _ _ _ _ _ _ _ Hpoll). }
  split.
  { intros response Hr Hdown. rewrite stop_after_request, Hr.
    rewrite poll_unfold; cbv zeta.
    destruct (probe_outcome E opts (shutdown_requested E opts w)); [| congruence].
    reflexivity. }
  intros response n Hr Hup Hn Hfuel.
  rewrite stop_after_request, Hr.
  rewrite (poll_times_out E up stop_timeout) with (n := n); auto.
  intros k port host. rewrite Hup. reflexivity.
Qed.

End Shutdown.

(** *** The HTTP action dispatcher *)

Section Dispatch.
Context `{Runtime} (E : env).

Lemma requests_emit (w : world) (url : val) (o : dict) :
  last (requests (emit (got_request url o) w)) = Some o.
Proof.
  unfold requests, emit. cbn [w_trace].
  rewrite omap_app. cbn [omap]. apply last_snoc.
Qed.


Lemma call_throws (name : string) (data : val) (opts : dict) (w : world) :
  truthy data = true ->
  String.eqb (to_string data) "[object String]" || is_string data = true ->
  JSON_parse (to_string data) = None ->
  call E name data opts w = Threw (SyntaxError (to_string data)) w.
Proof.
  intros Hdata Hstr Hparse.
  unfold call, _action. cbv zeta.
  dict_lookup.
  replace (truthy (VStr "POST")) with true by reflexivity.
  dict_lookup.
  replace (strict_eq (VStr "POST") (VStr "POST")) with true by reflexivity.
  rewrite Hdata, Hstr, Hparse. reflexivity.
Qed.


End Dispatch.

(** *** The dispatcher on every request *)

Section ActionFacts.
Context `{Runtime} (E : env).

Lemma falsy_is_not_POST (m : val) : truthy m = false -> strict_eq m (VStr "POST") = false.
Proof.
  destruct m as [| | b | n | s | l | o]; try reflexivity.
  simpl. destruct s; [reflexivity | discriminate].
Qed.

Lemma _action_cases (arg : string + dict) (w : world) :
  _action E arg w =
    if has_body (given arg) then
      if taken_for_string (given arg !!! "data") then
        match JSON_parse (to_string (given arg !!! "data")) with
        | Some v => sends E arg v w
        | None => Threw (SyntaxError (to_string (given arg !!! "data"))) w
        end
      else sends E arg (given arg !!! "data") w
    else sends E arg (VBool true) w.
Proof.
  unfold _action, sends, request_of, has_body, taken_for_string. cbv zeta.
  fold (given arg). set (o := given arg).
  destruct (truthy (o !!! "method")) eqn:Hm.
  - dict_lookup.
    destruct (strict_eq (o !!! "method") (VStr "POST") && truthy (o !!! "data")).
    + destruct (String.eqb (to_string (o !!! "data")) "[object String]"
                || is_string (o !!! "data")).
      * destruct (JSON_parse (to_string (o !!! "data"))); [| reflexivity].
        rewrite insert_insert_eq. dict_lookup.
        destruct (got E _ _); reflexivity.
      * rewrite insert_insert_eq. dict_lookup. destruct (got E _ _); reflexivity.
    + dict_lookup. destruct (got E _ _); reflexivity.
  - dict_lookup. rewrite (falsy_is_not_POST _ Hm).
    replace (strict_eq (VStr "GET") (VStr "POST")) with false by reflexivity.
    cbn [andb]. dict_lookup. destruct (got E _ _); reflexivity.
Qed.

Lemma request_of_facts (arg : string + dict) (payload : val) :
  request_of arg payload !! "raw" = None
  /\ request_of arg payload !!! "json" = payload
  /\ request_of arg payload !!! "method" =
       (if truthy (given arg !!! "method") then given arg !!! "method" else VStr "GET")
  /\ (forall k, k <> "raw" -> k <> "json" -> k <> "method" ->
                request_of arg payload !! k = given arg !! k).
Proof.
  unfold request_of. split; [apply lookup_delete_eq |].
  split; [dict_lookup; reflexivity |].
  split.
  - dict_lookup. destruct (truthy (given arg !!! "method")); dict_lookup; reflexivity.
  - intros k Hraw Hjson Hmethod.
    rewrite lookup_delete_ne by congruence. rewrite lookup_insert_ne by congruence.
    destruct (truthy (given arg !!! "method")); [reflexivity |].
    apply lookup_insert_ne. congruence.
Qed.




(** X2.  Whenever [_action] returns a settled promise it has sent exactly one
    request and touched nothing else: the store and the probe count are as
    before.  The options handed to the HTTP client carry no [raw] property,
    a method that is the given one when truthy and GET otherwise, the JSON
    payload ([true] without a body, the body itself, or the parsed body when
    the dispatcher takes it for a string), and every other given option
    untouched.  The promise rejects with the error of the HTTP client as it
    is, and resolves with the whole response when [raw] was truthy and with
    the body of the response otherwise. *)
Theorem action_sends_one_normalised_request
    (arg : string + dict) (w : world) (p : promise val) (w' : world) :
  _action E arg w = Done p w' ->
  exists req : dict,
    w_trace w' = (w_trace w ++ [got_request (req !!! "url") req])%list
    /\ w_status w' = w_status w
    /\ w_attempts w' = w_attempts w
    /\ req !! "raw" = None
    /\ req !!! "method" =
         (if truthy (given arg !!! "method") then given arg !!! "method" else VStr "GET")
    /\ (has_body (given arg) = false -> req !!! "json" = VBool true)
    /\ (has_body (given arg) = true -> taken_for_string (given arg !!! "data") = false ->
        req !!! "json" = given arg !!! "data")
    /\ (has_body (given arg) = true -> taken_for_string (given arg !!! "data") = true ->
        JSON_parse (to_string (given arg !!! "data")) = Some (req !!! "json"))
    /\ (forall k, k <> "raw" -> k <> "json" -> k <> "method" -> req !! k = given arg !! k)
    /\ p = match got E (req !!! "url") req with
           | inl e => Rejected e
           | inr response =>
               Resolved (if truthy (given arg !!! "raw") then response
                         else prop "body" response)
           end.
Proof.
  rewrite _action_cases.
  assert (Hsends : forall payload,
             sends E arg payload w = Done p w' ->
             (has_body (given arg) = false -> payload = VBool true) ->
             (has_body (given arg) = true ->
              taken_for_string (given arg !!! "data") = false ->
              payload = given arg !!! "data") ->
             (has_body (given arg) = true ->
              taken_for_string (given arg !!! "data") = true ->
              JSON_parse (to_string (given arg !!! "data")) = Some payload) ->
             exists req : dict,
               w_trace w' = (w_trace w ++ [got_request (req !!! "url") req])%list
               /\ w_status w' = w_status w
               /\ w_attempts w' = w_attempts w
               /\ req !! "raw" = None
               /\ req !!! "method" =
                    (if truthy (given arg !!! "method") then given arg !!! "method"
                     else VStr "GET")
               /\ (has_body (given arg) = false -> req !!! "json" = VBool true)
               /\ (has_body (given arg) = true ->
                   taken_for_string (given arg !!! "data") = false ->
                   req !!! "json" = given arg !!! "data")
               /\ (has_body (given arg) = true ->
                   taken_for_string (given arg !!! "data") = true ->
                   JSON_parse (to_string (given arg !!! "data")) = Some (req !!! "json"))
               /\ (forall k, k <> "raw" -> k <> "json" -> k <> "method" ->
                             req !! k = given arg !! k)
               /\ p = match got E (req !!! "url") req with
                      | inl e => Rejected e
                      | inr response =>
                          Resolved (if truthy (given arg !!! "raw") then response
                                    else prop "body" response)
                      end).
  { intros payload Hrun Hnone Hobj Hstr. unfold sends in Hrun. cbv zeta in Hrun.
    injection Hrun as <- <-.
    destruct (request_of_facts arg payload) as (Hraw & Hjson & Hmethod & Hrest).
    exists (request_of arg payload).
    repeat split; try reflexivity; try assumption.
    - intros Hb. rewrite Hjson. auto.
    - intros Hb Ht. rewrite Hjson. auto.
    - intros Hb Ht. rewrite Hjson. auto. }
  destruct (has_body (given arg)) eqn:Hb.
  - destruct (taken_for_string (given arg !!! "data")) eqn:Ht.
    + destruct (JSON_parse (to_string (given arg !!! "data"))) as [v |] eqn:Hp;
        [| discriminate].
      intros Hrun. apply (Hsends v Hrun); congruence.
    + intros Hrun. apply (Hsends _ Hrun); congruence.
  - intros Hrun. apply (Hsends _ Hrun); congruence.
Qed.

(** X3.  A body that is falsy (undefined, null, the empty string, 0, false)
    is no body: [call] then never throws, also for the empty string, which
    [JSON.parse] would reject; the request goes out with [json: true], and the
    options handed to the HTTP client still carry the [data] given. *)
Theorem bodyless_call_sends_json_true (name : string) (data : val) (opts : dict) (w : world) :
  truthy data = false ->
  (forall e w', call E name data opts w <> Threw e w')
  /\ outgoing_json (call E name data opts w) = Some (VBool true)
  /\ exists (p : promise val) (req : dict),
       call E name data opts w =
         Done p (emit (got_request (VStr (getEmulatorRootUri E opts w ++ "/" ++ name)) req) w)
       /\ req !!! "data" = data
       /\ req !!! "method" = VStr "POST".
Proof.
  intros Hdata.
  assert (Hrun : call E name data opts w =
                   sends E (inr (call_options E name data opts w)) (VBool true) w).
  { unfold call. fold (call_options E name data opts w). rewrite _action_cases.
    unfold has_body, given, call_options. dict_lookup. rewrite Hdata.
    rewrite andb_false_r. reflexivity. }
  rewrite Hrun. unfold sends. cbv zeta.
  assert (Hurl : request_of (inr (call_options E name data opts w)) (VBool true) !!! "url"
                 = VStr (getEmulatorRootUri E opts w ++ "/" ++ name)).
  { unfold request_of, given, call_options. dict_lookup.
    replace (truthy (VStr "POST")) with true by reflexivity. dict_lookup. reflexivity. }
  rewrite Hurl.
  split; [discriminate |].
  split.
  - unfold outgoing_json. rewrite requests_emit.
    destruct (request_of_facts (inr (call_options E name data opts w)) (VBool true))
      as (_ & Hjson & _).
    cbn [fmap option_fmap option_map]. rewrite Hjson. reflexivity.
  - eexists. eexists. split; [reflexivity |].
    unfold request_of, given, call_options. dict_lookup.
    replace (truthy (VStr "POST")) with true by reflexivity. dict_lookup.
    split; reflexivity.
Qed.

End ActionFacts.

(** *** The operations built on the dispatcher *)

Section Operations.
Context `{Runtime} (E : env).

Lemma sends_is_plain (arg : string + dict) (method url : string) (w : world) :
  given arg !!! "url" = VStr url ->
  (if truthy (given arg !!! "method") then given arg !!! "method" else VStr "GET")
  = VStr method ->
  given arg !! "data" = None ->
  truthy (given arg !!! "raw") = false ->
  sends_plain E (sends E arg (VBool true) w) method url w.
Proof.
  intros Hurl Hmethod Hdata Hraw.
  destruct (request_of_facts arg (VBool true)) as (Hnoraw & Hjson & Hm & Hrest).
  assert (Hu : request_of arg (VBool true) !!! "url" = VStr url).
  { rewrite <- Hurl. unfold lookup_total, map_lookup_total.
    rewrite Hrest by discriminate. reflexivity. }
  exists (request_of arg (VBool true)).
  unfold sends. cbv zeta. rewrite Hu, Hraw.
  split; [reflexivity |]. split; [rewrite Hm; exact Hmethod |].
  split; [reflexivity |]. split; [exact Hjson |].
  split; [rewrite Hrest by discriminate; exact Hdata | exact Hnoraw].
Qed.

Ltac plain_operation :=
  rewrite _action_cases; unfold has_body, given; dict_lookup;
  match goal with
  | |- context [strict_eq ?m (VStr "POST") && truthy ?d] =>
      replace (strict_eq m (VStr "POST") && truthy d) with false by reflexivity
  end;
  apply sends_is_plain; unfold given; dict_lookup;
  first [ reflexivity
        | apply lookup_empty
        | repeat (rewrite lookup_insert_ne by discriminate); apply lookup_empty ].

(** X4.  [list], [describe], [undeploy], [clear], [prune], [deploy] and
    [getCurrentEnvironment] each send one request without a body and yield
    the decoded body of the response (the transport error when the request
    fails); none of them throws or touches the store.  [list] and [describe]
    are GETs, [clear] and [undeploy] DELETEs, [prune] a PATCH and [deploy] a
    POST whose URL carries the resolved module path and the type; [clear],
    [prune] and [list] address the same collection under the root URI, and
    [describe] and [undeploy] of a name the same function. *)
Theorem function_operations_send_one_request
    (resolve : string -> string) (modulePath entryPoint type name : string)
    (opts : dict) (w : world) :
  let collection := getEmulatorRootUri E opts w ++ "/function/" in
  sends_plain E (list_ E opts w) "GET" collection w
  /\ sends_plain E (describe E name opts w) "GET" (collection ++ name) w
  /\ sends_plain E (undeploy E name opts w) "DELETE" (collection ++ name) w
  /\ sends_plain E (clear E opts w) "DELETE" collection w
  /\ sends_plain E (prune E opts w) "PATCH" collection w
  /\ sends_plain E (deploy E resolve modulePath entryPoint type opts w) "POST"
       (collection ++ entryPoint ++ "?path=" ++ resolve modulePath ++ "&type=" ++ type) w
  /\ sends_plain E (getCurrentEnvironment E opts w) "GET"
       (getEmulatorRootUri E opts w ++ "/?env=true") w.
Proof.
  intros collection. subst collection.
  unfold list_, describe, undeploy, clear, prune, deploy, getCurrentEnvironment,
    getEmulatorFuncUri.
  repeat split; plain_operation.
Qed.

End Operations.

(** *** The address of the server *)

Section Addressing.
Context `{Runtime} (E : env).

(** X5.  The probe and the requests go to the same address, resolved with the
    same precedence: the host (and likewise the port) is the caller's option
    when that is truthy, else the one of the persisted Status Record when that
    is truthy, else the configured one; [testConnection] connects to the very
    host and port that [getEmulatorRootUri] puts in the URL.  For the other
    settings a truthy option wins over the configuration. *)
Theorem probe_and_requests_share_the_address (opts : dict) (w : world) :
  exists host port : val,
    w_trace (snd (testConnection E opts w)) =
      (w_trace w ++ [net_connect port host (connect E (w_attempts w) port host)])%list
    /\ getEmulatorRootUri E opts w = "http://" ++ to_string host ++ ":" ++ to_string port
    /\ (truthy (opts !!! "host") = true -> host = opts !!! "host")
    /\ (truthy (opts !!! "host") = false -> truthy (status_get "host" w) = true ->
        host = status_get "host" w)
    /\ (truthy (opts !!! "host") = false -> truthy (status_get "host" w) = false ->
        host = config_get E "host")
    /\ (truthy (opts !!! "port") = true -> port = opts !!! "port")
    /\ (truthy (opts !!! "port") = false -> truthy (status_get "port" w) = true ->
        port = status_get "port" w)
    /\ (truthy (opts !!! "port") = false -> truthy (status_get "port" w) = false ->
        port = config_get E "port")
    /\ (forall key, truthy (opts !!! key) = true -> getSetting E key opts = opts !!! key).
Proof.
  exists (probe_host E opts w), (probe_port E opts w).
  split; [rewrite testConnection_outcome; reflexivity |].
  split; [reflexivity |].
  unfold probe_host, probe_port, getSetting, or.
  repeat split; intros;
    repeat (match goal with Hx : truthy _ = _ |- _ => rewrite Hx end; cbv iota);
    reflexivity.
Qed.

End Addressing.

(** *** Bounds on the polls *)

Section PollBounds.
Context `{Runtime} (E : env).
Variables (retry : option error -> bool) (expired : error).

(** Whatever it returns, a poll leaves the store alone, and all it does is
    connect to one address and set the timer of one poll interval. *)
Lemma poll_frame (fuel : nat) :
  forall (opts : dict) (i : val) (w : world),
    match poll E retry expired fuel opts i w with
    | Threw _ _ | Crashed _ _ => False
    | Done _ w' | Pending _ w' =>
        w_status w' = w_status w
        /\ (w_attempts w < w_attempts w')%nat
        /\ exists tr : list event,
             w_trace w' = (w_trace w ++ tr)%list
             /\ Forall (fun ev =>
                          ev = setTimeout (Fin 500)
                          \/ exists o,
                               ev = net_connect (probe_port E opts w) (probe_host E opts w) o)
                       tr
    end.
Proof.
  assert (Hone : forall opts w,
             Forall (fun ev =>
                       ev = setTimeout (Fin 500)
                       \/ exists o,
                            ev = net_connect (probe_port E opts w) (probe_host E opts w) o)
                    [net_connect (probe_port E opts w) (probe_host E opts w)
                       (probe_outcome E opts w)]).
  { intros opts w. apply Forall_cons. split; [right; eauto | apply Forall_nil_2]. }
  induction fuel as [| fuel IH]; intros opts i w; rewrite poll_unfold; cbv zeta.
  - destruct (retry _); [destruct (leb _ _) |];
      (split; [reflexivity |]); (split; [simpl; lia |]).
    + eexists. split; [reflexivity | apply Hone].
    + exists [net_connect (probe_port E opts w) (probe_host E opts w) (probe_outcome E opts w);
              setTimeout (Fin 500)].
      split; [simpl; rewrite <- app_assoc; reflexivity |].
      apply Forall_cons. split; [right; eauto |].
      apply Forall_cons. split; [left; reflexivity | apply Forall_nil_2].
    + eexists. split; [reflexivity | apply Hone].
  - destruct (retry _); [destruct (leb _ _) |];
      try (split; [reflexivity |]; split; [simpl; lia |];
           eexists; split; [reflexivity | apply Hone]).
    specialize (IH opts (decremented (if negb (truthy i) then initial_count opts else i))
                  (round E opts w)).
    destruct (rounds_frame E 1 opts w) as (_ & _ & Hh & Hp).
    change (rounds E 1 opts w) with (round E opts w) in Hh, Hp.
    destruct (poll E retry expired fuel opts _ (round E opts w))
      as [e w' | p w' | j w' | e w'];
      [exact IH | | | exact IH]; destruct IH as (Hs & Ha & tr & Htr & Hall);
      (split; [exact Hs |]); (split; [simpl in Ha; lia |]);
      exists ([net_connect (probe_port E opts w) (probe_host E opts w)
                 (probe_outcome E opts w);
               setTimeout (Fin 500)] ++ tr)%list;
      (split; [rewrite Htr; simpl; rewrite <- !app_assoc; reflexivity |]);
      rewrite Hh, Hp in Hall;
      (apply Forall_app; split; [| exact Hall]);
      (apply Forall_cons; split; [right; eauto |]);
      (apply Forall_cons; split; [left; reflexivity | apply Forall_nil_2]).
Qed.

(** A counter that is used up by the decrement that follows [n] rounds lets
    a poll make at most [n + 1] probes, whatever the probes report. *)
Lemma poll_bounded (opts : dict) (n : nat) :
  forall (j fuel : nat) (i : val) (w : world),
    (if negb (truthy i) then initial_count opts else i) = countdown opts j ->
    used_up (countdown opts (S (j + n))) = true ->
    (n <= fuel)%nat ->
    exists p w',
      poll E retry expired fuel opts i w = Done p w'
      /\ (w_attempts w' <= w_attempts w + n + 1)%nat.
Proof.
  induction n as [| n IH]; intros j fuel i w Hi Hat Hfuel;
    rewrite poll_unfold; cbv zeta; rewrite Hi, <- countdown_S;
    (destruct (retry _); [| eexists; eexists; split; [reflexivity | simpl; lia]]);
    (destruct (leb (to_number (countdown opts (S j))) (Fin 0)) eqn:Hnext;
       [eexists; eexists; split; [reflexivity | simpl; lia] |]).
  - replace (j + 0)%nat with j in Hat by lia. unfold used_up in Hat. congruence.
  - destruct fuel as [| fuel]; [lia |].
    destruct (IH (S j) fuel (countdown opts (S j)) (round E opts w))
      as (p & w' & Hrun & Hatt).
    + apply counter_kept. exact Hnext.
    + replace (S j + n)%nat with (j + S n)%nat by lia. exact Hat.
    + lia.
    + exists p, w'. split; [exact Hrun | simpl in Hatt; lia].
Qed.

Lemma poll_bounded_initial (opts : dict) (n fuel : nat) (i : val) (w : world) :
  used_up (countdown opts (S n)) = true ->
  (n <= fuel)%nat ->
  truthy i = false ->
  exists p w',
    poll E retry expired fuel opts i w = Done p w'
    /\ (w_attempts w' <= w_attempts w + n + 1)%nat
    /\ w_status w' = w_status w.
Proof.
  intros Hat Hfuel Hi.
  destruct (poll_bounded opts n 0 fuel i w) as (p & w' & Hrun & Hatt);
    [rewrite Hi; reflexivity | exact Hat | exact Hfuel |].
  exists p, w'. split; [exact Hrun |]. split; [exact Hatt |].
  pose proof (poll_frame fuel opts i w) as Hframe. rewrite Hrun in Hframe.
  apply Hframe.
Qed.

Lemma nth_probe_round (opts : dict) (w : world) (j : nat) :
  nth_probe E opts (round E opts w) j = nth_probe E opts w (S j).
Proof.
  unfold nth_probe.
  destruct (rounds_frame E 1 opts w) as (_ & Ha & Hh & Hp).
  change (rounds E 1 opts w) with (round E opts w) in *.
  rewrite Ha, Hh, Hp. f_equal. lia.
Qed.

Lemma probe_outcome_nth (opts : dict) (w : world) :
  probe_outcome E opts w = nth_probe E opts w 0.
Proof. unfold probe_outcome, nth_probe. rewrite Nat.add_0_r. reflexivity. Qed.

(** A poll resolves at the first probe that reports the awaited state, when
    the counter outlasts the probes before it. *)
Lemma poll_resolves_at (opts : dict) (k : nat) :
  forall (j fuel : nat) (i : val) (w : world),
    (if negb (truthy i) then initial_count opts else i) = countdown opts j ->
    (forall l, (j < l <= j + k)%nat -> used_up (countdown opts l) = false) ->
    (k <= fuel)%nat ->
    (forall l, (l < k)%nat -> retry (nth_probe E opts w l) = true) ->
    retry (nth_probe E opts w k) = false ->
    poll E retry expired fuel opts i w =
      Done (Resolved tt) (probed E opts (rounds E k opts w)).
Proof.
  induction k as [| k IH]; intros j fuel i w Hi Hleft Hfuel Hbefore Hat.
  - rewrite poll_unfold; cbv zeta. rewrite probe_outcome_nth, Hat. reflexivity.
  - destruct fuel as [| fuel]; [lia |].
    rewrite poll_unfold; cbv zeta.
    rewrite Hi, probe_outcome_nth, (Hbefore O) by lia.
    rewrite <- countdown_S.
    assert (Hnext : used_up (countdown opts (S j)) = false) by (apply Hleft; lia).
    unfold used_up in Hnext. rewrite Hnext.
    rewrite (IH (S j) fuel (countdown opts (S j)) (round E opts w)).
    + rewrite (rounds_succ_r E k). reflexivity.
    + apply counter_kept. exact Hnext.
    + intros l Hl. apply Hleft. lia.
    + lia.
    + intros l Hl. rewrite nth_probe_round. apply Hbefore. lia.
    + rewrite nth_probe_round. exact Hat.
Qed.

Lemma poll_resolves_at_initial (opts : dict) (k : nat) :
  forall (fuel : nat) (i : val) (w : world),
    truthy i = false ->
    (forall l, (1 <= l <= k)%nat -> used_up (countdown opts l) = false) ->
    (k <= fuel)%nat ->
    (forall l, (l < k)%nat -> retry (nth_probe E opts w l) = true) ->
    retry (nth_probe E opts w k) = false ->
    poll E retry expired fuel opts i w =
      Done (Resolved tt) (probed E opts (rounds E k opts w)).
Proof.
  intros fuel i w Hi Hleft Hfuel Hbefore Hat.
  apply (poll_resolves_at opts k 0 fuel i w);
    [rewrite Hi; reflexivity | intros l Hl; apply Hleft; lia | exact Hfuel
    | exact Hbefore | exact Hat].
Qed.

End PollBounds.

Section PollGuarantees.
Context `{Runtime} (E : env).

(** X6.  A counter that expires bounds both polls whatever the server does:
    if the decrement that follows the [n]-th round leaves the counter
    [<= 0], [_waitForStart(opts)] and [_waitForStop(opts)] settle after at
    most [n + 1] probes, and leave the Status Record as it was.  An
    [opts.timeout] of a whole number [m] of poll intervals ([500 * m], with
    [m] of magnitude below [2^53]) expires in this way after max(1, m) - 1
    rounds. *)
Theorem expiring_counter_bounds_the_polls (opts : dict) (n fuel : nat) (w : world) :
  (expires_after opts n ->
   (n <= fuel)%nat ->
   (exists p w',
      _waitForStart E fuel opts VUndef w = Done p w'
      /\ (w_attempts w' <= w_attempts w + n + 1)%nat
      /\ w_status w' = w_status w)
   /\ (exists p w',
         _waitForStop E fuel opts VUndef w = Done p w'
         /\ (w_attempts w' <= w_attempts w + n + 1)%nat
         /\ w_status w' = w_status w))
  /\ (forall (t : Q) (m : Z),
        to_number (opts !!! "timeout") = Fin t ->
        (t == 500 * inject_Z m)%Q ->
        (- 2 ^ 53 < m <= 2 ^ 53)%Z ->
        expires_after opts (rounds_allowed m)).
Proof.
  split.
  - intros [_ Hat] Hfuel. split.
    + rewrite _waitForStart_poll. apply poll_bounded_initial; auto.
    + rewrite _waitForStop_poll. apply poll_bounded_initial; auto.
  - intros t m Ht Hm Hrange. apply (whole_timeout_expires opts t m Ht Hm Hrange).
Qed.

(** X7.  A poll resolves at the first probe that reports the awaited state,
    provided the counter outlasts the probes before it: when the first [k]
    probes fail and the next one connects, and none of the first [k]
    decrements leaves the counter [<= 0], [_waitForStart(opts)] resolves
    after [k] rounds of probe and 500 ms timer and that probe;
    [_waitForStop(opts)] likewise at the first probe that fails.  The counter
    lasts that long when [opts.timeout] is a whole number [m] of poll
    intervals with [k < m <= 2^53]. *)
Theorem poll_resolves_at_first_awaited_probe (opts : dict) (k fuel : nat) (w : world) :
  ((forall j, (1 <= j <= k)%nat -> used_up (countdown opts j) = false) ->
   (k <= fuel)%nat ->
   ((forall j, (j < k)%nat -> nth_probe E opts w j <> None) ->
    nth_probe E opts w k = None ->
    _waitForStart E fuel opts VUndef w =
      Done (Resolved tt) (probed E opts (rounds E k opts w)))
   /\ ((forall j, (j < k)%nat -> nth_probe E opts w j = None) ->
       nth_probe E opts w k <> None ->
       _waitForStop E fuel opts VUndef w =
         Done (Resolved tt) (probed E opts (rounds E k opts w))))
  /\ (forall (t : Q) (m : Z),
        to_number (opts !!! "timeout") = Fin t ->
        (t == 500 * inject_Z m)%Q ->
        (Z.of_nat k < m <= 2 ^ 53)%Z ->
        forall j, (1 <= j <= k)%nat -> used_up (countdown opts j) = false).
Proof.
  split.
  - intros Hleft Hfuel. split.
    + intros Hbefore Hat. rewrite _waitForStart_poll.
      apply poll_resolves_at_initial; auto.
      * intros j Hj. specialize (Hbefore j Hj).
        destruct (nth_probe E opts w j); [reflexivity | congruence].
      * rewrite Hat. reflexivity.
    + intros Hbefore Hat. rewrite _waitForStop_poll.
      apply poll_resolves_at_initial; auto.
      * intros j Hj. rewrite (Hbefore j Hj). reflexivity.
      * destruct (nth_probe E opts w k); [reflexivity | congruence].
  - intros t m Ht Hm Hrange j Hj.
    rewrite (countdown_whole opts t m Ht Hm) by lia.
    rewrite used_up_count. apply Z.leb_gt. lia.
Qed.

End PollGuarantees.

(** *** What [start] leaves behind *)

Section AfterStart.
Context `{Runtime} (E : env).

Lemma or_fallback (a o c : val) :
  a = o \/ truthy a = false -> or (or a (or o c)) c = or o c.
Proof.
  intros [-> | Ha]; unfold or.
  - destruct (truthy o) eqn:Ho; rewrite ?Ho; [reflexivity |].
    destruct (truthy c) eqn:Hc; rewrite ?Hc; reflexivity.
  - rewrite Ha. destruct (truthy o) eqn:Ho; rewrite ?Ho; [reflexivity |].
    destruct (truthy c) eqn:Hc; rewrite ?Hc; reflexivity.
Qed.

Lemma launched_record (opts : dict) (logFile pid : val) (w : world) :
  let w0 := launched E opts logFile pid w in
  status_get "pid" w0 = pid
  /\ status_get "host" w0 = getSetting E "host" opts
  /\ status_get "port" w0 = getSetting E "port" opts
  /\ status_get "logFile" w0 = logFile
  /\ status_get "projectId" w0 = or (getSetting E "projectId" opts) (GCLOUD_PROJECT E)
  /\ status_get "debug" w0 = getSetting E "debug" opts
  /\ status_get "debugPort" w0 = getSetting E "debugPort" opts
  /\ status_get "inspect" w0 = getSetting E "inspect" opts.
Proof.
  cbv zeta. unfold status_get, launched. cbn [w_status].
  split; [apply lookup_total_insert_eq |].
  repeat split;
    rewrite lookup_total_insert_ne by discriminate;
    unfold lookup_total, map_lookup_total;
    (erewrite lookup_union_Some_l; [reflexivity |]);
    unfold settings_record;
    repeat (rewrite lookup_insert_ne by discriminate);
    apply lookup_insert_eq.
Qed.

Lemma launched_address (opts : dict) (logFile pid : val) (w : world) :
  let w0 := launched E opts logFile pid w in
  probe_host E opts w0 = getSetting E "host" opts
  /\ probe_port E opts w0 = getSetting E "port" opts
  /\ probe_host E ∅ w0 = getSetting E "host" opts
  /\ probe_port E ∅ w0 = getSetting E "port" opts.
Proof.
  cbv zeta.
  destruct (launched_record opts logFile pid w) as (_ & Hh & Hp & _).
  unfold probe_host, probe_port. rewrite Hh, Hp. unfold getSetting.
  repeat split; apply or_fallback; auto; right; rewrite lookup_total_empty; reflexivity.
Qed.

(** The world [start] is in after the spawn, settled or not. *)
Lemma start_since_launch (fuel : nat) (opts : dict) (w : world) (logFile out pid : val) :
  assertLogsPath E (getSetting E "logFile" opts) = inr logFile ->
  openSync E logFile "a" = inr out ->
  spawn E "node" (fst (child_args E opts logFile)) = inr pid ->
  match start E fuel opts w with
  | Threw _ _ => False
  | Done _ w' | Pending _ w' | Crashed _ w' =>
      w_status w' = w_status (launched E opts logFile pid w)
      /\ exists tr : list event,
           w_trace w' = (w_trace (launched E opts logFile pid w) ++ tr)%list
           /\ Forall (fun ev =>
                        ev = setTimeout (Fin 500)
                        \/ exists o,
                             ev = net_connect (getSetting E "port" opts)
                                    (getSetting E "host" opts) o)
                     tr
  end.
Proof.
  intros Hlog Hopen Hspawn.
  rewrite (start_since_spawn E fuel opts w logFile out pid Hlog Hopen Hspawn).
  destruct (spawn_error E "node" (fst (child_args E opts logFile))) as [e |].
  { split; [reflexivity |]. exists []. split; [symmetry; apply app_nil_r | apply Forall_nil_2]. }
  pose proof (poll_frame E down start_timeout fuel opts VUndef
                (launched E opts logFile pid w)) as Hframe.
  destruct (launched_address opts logFile pid w) as (Hh & Hp & _).
  cbv zeta in Hh, Hp. rewrite Hh, Hp in Hframe.
  destruct (poll E down start_timeout fuel opts VUndef (launched E opts logFile pid w))
    as [e w' | p w' | i w' | e w']; [exact Hframe | | | contradiction];
    destruct Hframe as (Hs & _ & Htr); split; assumption.
Qed.

(** X8.  Once the child is spawned, [start] has written the Status Record and
    never takes it back: whether its promise resolves, rejects with the
    start-timeout or is still pending (or the process has died of the
    ['error'] event of the child), the store holds the pid of the child
    and the settings [start] resolved, so that a later command given no host
    and no port addresses the server at the host and port [start] resolved. *)
Theorem start_keeps_its_record
    (fuel : nat) (opts : dict) (w : world) (logFile out pid : val) :
  assertLogsPath E (getSetting E "logFile" opts) = inr logFile ->
  openSync E logFile "a" = inr out ->
  spawn E "node" (fst (child_args E opts logFile)) = inr pid ->
  match start E fuel opts w with
  | Threw _ _ => False
  | Done _ w' | Pending _ w' | Crashed _ w' =>
      status_get "pid" w' = pid
      /\ status_get "host" w' = getSetting E "host" opts
      /\ status_get "port" w' = getSetting E "port" opts
      /\ status_get "logFile" w' = logFile
      /\ status_get "projectId" w' = or (getSetting E "projectId" opts) (GCLOUD_PROJECT E)
      /\ status_get "debug" w' = getSetting E "debug" opts
      /\ status_get "debugPort" w' = getSetting E "debugPort" opts
      /\ status_get "inspect" w' = getSetting E "inspect" opts
      /\ getEmulatorRootUri E ∅ w' =
           "http://" ++ to_string (getSetting E "host" opts)
           ++ ":" ++ to_string (getSetting E "port" opts)
  end.
Proof.
  intros Hlog Hopen Hspawn.
  pose proof (start_since_launch fuel opts w logFile out pid Hlog Hopen Hspawn) as Hsince.
  pose proof (launched_record opts logFile pid w) as Hrec.
  destruct (launched_address opts logFile pid w) as (_ & _ & Hh & Hp).
  cbv zeta in Hrec, Hh, Hp.
  assert (Hgoal : forall w',
             w_status w' = w_status (launched E opts logFile pid w) ->
             status_get "pid" w' = pid
             /\ status_get "host" w' = getSetting E "host" opts
             /\ status_get "port" w' = getSetting E "port" opts
             /\ status_get "logFile" w' = logFile
             /\ status_get "projectId" w'
                = or (getSetting E "projectId" opts) (GCLOUD_PROJECT E)
             /\ status_get "debug" w' = getSetting E "debug" opts
             /\ status_get "debugPort" w' = getSetting E "debugPort" opts
             /\ status_get "inspect" w' = getSetting E "inspect" opts
             /\ getEmulatorRootUri E ∅ w' =
                  "http://" ++ to_string (getSetting E "host" opts)
                  ++ ":" ++ to_string (getSetting E "port" opts)).
  { intros w' Hs.
    unfold getEmulatorRootUri, status_get in *. unfold probe_host, probe_port, status_get in *.
    rewrite Hs. rewrite Hh, Hp.
    destruct Hrec as (R1 & R2 & R3 & R4 & R5 & R6 & R7 & R8).
    repeat split; assumption || reflexivity. }
  destruct (start E fuel opts w) as [e w' | p w' | i w' | e w']; [exact Hsince | | |];
    apply Hgoal, Hsince.
Qed.

(** X9.  [start] polls the address it gave the child: every effect between
    the spawn and the end of [start] is a connection attempt to the host and
    port passed after [--host] and [--port] on the command line of the child,
    or the timer of 500 ms; no request is sent and no signal. *)
Theorem start_polls_the_address_given_to_the_child
    (fuel : nat) (opts : dict) (w : world) (logFile out pid : val) :
  assertLogsPath E (getSetting E "logFile" opts) = inr logFile ->
  openSync E logFile "a" = inr out ->
  spawn E "node" (fst (child_args E opts logFile)) = inr pid ->
  base_args E opts logFile !! 1%nat = Some (VStr "--host")
  /\ base_args E opts logFile !! 2%nat = Some (getSetting E "host" opts)
  /\ base_args E opts logFile !! 3%nat = Some (VStr "--port")
  /\ base_args E opts logFile !! 4%nat = Some (getSetting E "port" opts)
  /\ match start E fuel opts w with
     | Threw _ _ => False
     | Done _ w' | Pending _ w' | Crashed _ w' =>
         exists tr : list event,
           w_trace w' = (w_trace (launched E opts logFile pid w) ++ tr)%list
           /\ Forall (fun ev =>
                        ev = setTimeout (Fin 500)
                        \/ exists o,
                             ev = net_connect (getSetting E "port" opts)
                                    (getSetting E "host" opts) o)
                     tr
     end.
Proof.
  intros Hlog Hopen Hspawn.
  repeat (split; [reflexivity |]).
  pose proof (start_since_launch fuel opts w logFile out pid Hlog Hopen Hspawn) as Hsince.
  destruct (start E fuel opts w) as [e w' | p w' | i w' | e w']; [exact Hsince | | |];
    apply Hsince.
Qed.

(** X10.  [kill] after [start] signals the child [start] spawned: in the
    world [start] leaves once the child is spawned, resolved or timed out,
    [kill] sends the one signal to the pid [spawn] returned and clears the
    store. *)
Theorem kill_signals_the_spawned_child
    (fuel : nat) (opts opts' : dict) (w : world) (logFile out pid : val) :
  assertLogsPath E (getSetting E "logFile" opts) = inr logFile ->
  openSync E logFile "a" = inr out ->
  spawn E "node" (fst (child_args E opts logFile)) = inr pid ->
  match start E fuel opts w with
  | Threw _ _ => False
  | Done _ w' | Pending _ w' | Crashed _ w' =>
      exists w'' : world,
        kill E opts' w' = Done (Resolved tt) w''
        /\ w_trace w'' = (w_trace w' ++ [process_kill pid])%list
        /\ w_status w'' = ∅
  end.
Proof.
  intros Hlog Hopen Hspawn.
  pose proof (start_since_launch fuel opts w logFile out pid Hlog Hopen Hspawn) as Hsince.
  destruct (launched_record opts logFile pid w) as (Hpid & _).
  assert (Hgoal : forall w',
             w_status w' = w_status (launched E opts logFile pid w) ->
             exists w'' : world,
               kill E opts' w' = Done (Resolved tt) w''
               /\ w_trace w'' = (w_trace w' ++ [process_kill pid])%list
               /\ w_status w'' = ∅).
  { intros w' Hs. rewrite kill_outcome. eexists. split; [reflexivity |].
    cbn [w_trace w_status]. split; [| reflexivity].
    unfold status_get in *. rewrite Hs, Hpid. reflexivity. }
  destruct (start E fuel opts w) as [e w' | p w' | i w' | e w']; [exact Hsince | | |];
    apply Hgoal, Hsince.
Qed.

(** X11.  [status] right after a [start] that resolved, when the server still
    accepts connections, reports RUNNING with the record [start] wrote as
    metadata: it holds the pid of the child and the host and port [start]
    resolved. *)
Theorem status_after_start_is_running
    (fuel : nat) (opts : dict) (w w' : world) (logFile out pid : val) :
  assertLogsPath E (getSetting E "logFile" opts) = inr logFile ->
  openSync E logFile "a" = inr out ->
  spawn E "node" (fst (child_args E opts logFile)) = inr pid ->
  start E fuel opts w = Done (Resolved tt) w' ->
  probe_outcome E opts w' = None ->
  exists (md : dict) (w'' : world),
    status E opts w' =
      Done (Resolved {| state := RUNNING; metadata := Some md; error_of := None |}) w''
    /\ md !!! "pid" = pid
    /\ md !!! "host" = getSetting E "host" opts
    /\ md !!! "port" = getSetting E "port" opts
    /\ w_status w'' = md.
Proof.
  intros Hlog Hopen Hspawn Hrun Hprobe.
  pose proof (start_since_launch fuel opts w logFile out pid Hlog Hopen Hspawn) as Hsince.
  rewrite Hrun in Hsince. destruct Hsince as (Hs & _).
  destruct (launched_record opts logFile pid w) as (Hpid & Hh & Hp & _).
  exists (w_status w'). eexists.
  unfold status, then2, lift. rewrite testConnection_outcome, Hprobe. cbn.
  split; [reflexivity |].
  unfold status_get in *. rewrite Hs.
  repeat split; assumption.
Qed.

End AfterStart.

(** *** A child that cannot be run *)

Section SpawnFailure.
Context `{Runtime} (E : env).

(** C4, where the code departs from it.  A command that cannot be run (no
    [node] on the path, no permission to execute it) does not make [spawn]
    throw: [spawn] returns a child, and the failure arrives afterwards as the
    ['error'] event of that child.  By then [start] has written the Status
    Record, with the settings it resolved and the [pid] of that child
    ([undefined] in Node), and its promise does not reject with the spawn
    error: it never settles, because [start] registers no listener for the
    event and the process dies of it.  A record is left behind for a child
    that does not exist. *)
Theorem unrunnable_child_leaves_a_record
    (fuel : nat) (opts : dict) (w : world) (logFile out pid : val) (e : error) :
  assertLogsPath E (getSetting E "logFile" opts) = inr logFile ->
  openSync E logFile "a" = inr out ->
  spawn E "node" (fst (child_args E opts logFile)) = inr pid ->
  spawn_error E "node" (fst (child_args E opts logFile)) = Some e ->
  let w' := launched E opts logFile pid w in
  start E fuel opts w = Crashed e w'
  /\ (forall p w'', start E fuel opts w <> Done p w'')
  /\ status_get "pid" w' = pid
  /\ status_get "host" w' = getSetting E "host" opts
  /\ status_get "port" w' = getSetting E "port" opts
  /\ status_get "logFile" w' = logFile
  /\ (w_status w = ∅ -> logFile <> VUndef -> w_status w' <> w_status w)
  /\ w_attempts w' = w_attempts w.
Proof.
  intros Hlog Hopen Hspawn Hfail w'.
  assert (Hrun : start E fuel opts w = Crashed e w').
  { rewrite (start_since_spawn E fuel opts w logFile out pid Hlog Hopen Hspawn), Hfail.
    reflexivity. }
  destruct (launched_record E opts logFile pid w) as (Hpid & Hhost & Hport & Hfile & _).
  fold w' in Hpid, Hhost, Hport, Hfile.
  split; [exact Hrun |].
  split; [intros p w''; rewrite Hrun; discriminate |].
  split; [exact Hpid |]. split; [exact Hhost |]. split; [exact Hport |].
  split; [exact Hfile |].
  split; [| reflexivity].
  intros Hempty Hdefined Heq.
  unfold status_get in Hfile. rewrite Heq, Hempty, lookup_total_empty in Hfile.
  apply Hdefined. symmetry. exact Hfile.
Qed.

End SpawnFailure.

(** *** The major version of the runtime *)

Section Major.
Context (E : env).

Lemma split_dot_head_dot_free (s : string) :
  dot_free s = true -> split_dot_head s = s.
Proof.
  induction s as [| c s IH]; [reflexivity |].
  cbn [dot_free split_dot_head]. intros Hd. apply andb_true_iff in Hd as [Hc Hs].
  apply negb_true_iff in Hc. rewrite Hc, (IH Hs). reflexivity.
Qed.

Lemma split_dot_head_app (s rest : string) :
  dot_free s = true -> split_dot_head (s ++ String "." rest) = s.
Proof.
  induction s as [| c s IH]; [reflexivity |].
  cbn [dot_free]. intros Hd. apply andb_true_iff in Hd as [Hc Hs].
  apply negb_true_iff in Hc.
  change (String c s ++ String "." rest) with (String c (s ++ String "." rest)).
  cbn [split_dot_head]. rewrite Hc, (IH Hs). reflexivity.
Qed.

(** X12.  The major version [start] compares with 6 is read from the first
    dot-separated component of [process.version] with its first character
    dropped, whatever that character is: minor and patch never matter.  A
    version whose first component has no more than one character, or no
    digit after it, gives NaN, for which [major >= 6] is false. *)
Theorem major_reads_first_component (c : ascii) (s rest : string) :
  dot_free (String c s) = true ->
  (process_version E = String c s ++ String "." rest -> major E = parseInt s)
  /\ (process_version E = String c s -> major E = parseInt s)
  /\ (process_version E = String c "" ++ String "." rest ->
      major E = NaN /\ geb (major E) (Fin 6) = false).
Proof.
  intros Hd. unfold major.
  split; [| split].
  - intros ->. rewrite split_dot_head_app by exact Hd. reflexivity.
  - intros ->. rewrite split_dot_head_dot_free by exact Hd. reflexivity.
  - intros ->. cbn [dot_free] in Hd. apply andb_true_iff in Hd as [Hc _].
    apply negb_true_iff in Hc.
    change (String c "" ++ String "." rest) with (String c (String "." rest)).
    cbn [split_dot_head]. rewrite Hc. split; reflexivity.
Qed.

End Major.

(** *** After [stop], and the debug flag *)

Section Aftermath.
Context `{Runtime} (E : env).

(** X13.  Once [stop] has settled the Status Record is gone, and with it the
    host and port a [start] had recorded: every key of the store reads as
    undefined, and the root URI of a later command is built from its own
    options and the configuration alone. *)
Theorem after_stop_the_configuration_decides
    (fuel : nat) (opts : dict) (w : world) (p : promise unit) (w' : world) :
  stop E fuel opts w = Done p w' ->
  (forall key, status_get key w' = VUndef)
  /\ (forall opts' : dict,
        getEmulatorRootUri E opts' w' =
          "http://" ++ to_string (or (opts' !!! "host") (config_get E "host"))
          ++ ":" ++ to_string (or (opts' !!! "port") (config_get E "port"))).
Proof.
  rewrite stop_after_request. intros Hrun.
  assert (Hempty : w_status w' = ∅).
  { destruct (got E _ _) as [e | response].
    - injection Hrun as _ <-. reflexivity.
    - destruct (poll E up stop_timeout fuel opts VUndef (shutdown_requested E opts w))
        as [e w2 | q w2 | i w2 | e w2]; try discriminate.
      injection Hrun as _ <-. reflexivity. }
  assert (Hget : forall key, status_get key w' = VUndef).
  { intros key. unfold status_get. rewrite Hempty, lookup_total_empty. reflexivity. }
  split; [exact Hget |].
  intros opts'. unfold getEmulatorRootUri. rewrite !Hget.
  unfold or. cbn [truthy].
  destruct (truthy (opts' !!! "host")) eqn:Hh; rewrite ?Hh;
    destruct (truthy (opts' !!! "port")) eqn:Hp; rewrite ?Hp; reflexivity.
Qed.

(** X14.  When debug is requested and inspect is not, the flag of the child is
    [--debug=] followed by the resolved debug port as a template literal
    prints it: without a debug port in the options and in the configuration
    the child is started with the flag [--debug=undefined]. *)
Theorem debug_flag_prints_the_resolved_port (opts : dict) (logFile : val) :
  requested (getSetting E "inspect" opts) = false ->
  requested (getSetting E "debug" opts) = true ->
  fst (child_args E opts logFile) =
    VStr ("--debug=" ++ to_string (getSetting E "debugPort" opts)) :: base_args E opts logFile
  /\ (truthy (opts !!! "debugPort") = false -> config E !! "debugPort" = None ->
      fst (child_args E opts logFile) = VStr "--debug=undefined" :: base_args E opts logFile).
Proof.
  intros Hi Hd.
  assert (Hargs : fst (child_args E opts logFile) =
                    VStr ("--debug=" ++ to_string (getSetting E "debugPort" opts))
                    :: base_args E opts logFile).
  { unfold child_args.
    fold (requested (getSetting E "inspect" opts)) (requested (getSetting E "debug" opts)).
    rewrite Hi, Hd. reflexivity. }
  split; [exact Hargs |].
  intros Hopt Hconf. rewrite Hargs.
  unfold getSetting, or, config_get. rewrite Hopt.
  unfold lookup_total, map_lookup_total. rewrite Hconf. reflexivity.
Qed.

End Aftermath.

(** ** The controller at work

    Runs of the controller on the scenarios: the inputs on which a reading of
    the specification fails, and instances of the properties above. *)

Section Runs.
Import Scenario.

Lemma never_up_is_down : forall k port host, connect never_up k port host <> None.
Proof. intros k port host. discriminate. Qed.

Lemma stays_up_is_up : forall k port host, connect stays_up k port host = None.
Proof. reflexivity. Qed.

(** The arithmetic of the counter is that of doubles: a quotient is rounded,
    a decrement is exact up to [2^53] and absorbed from 2e16 on. *)
Example counter_arithmetic :
  div (Fin 3000) TIMEOUT_POLL_INCREMENT = Fin 6
  /\ div (Fin 1200) TIMEOUT_POLL_INCREMENT = Fin (5404319552844595 # 2251799813685248)
  /\ div (Fin (inject_Z 72057594037927504)) TIMEOUT_POLL_INCREMENT
     = Fin (inject_Z 144115188075855)
  /\ sub (Fin (inject_Z 9007199254740992)) (Fin 1) = Fin (inject_Z 9007199254740991)
  /\ sub (Fin (inject_Z 20000000000000000)) (Fin 1) = Fin (inject_Z 20000000000000000)
  /\ sub (Fin (1 # 2)) (Fin 1) = Fin (- 1 # 2).
Proof. repeat split; vm_compute; reflexivity. Qed.

(** [start({timeout: 1000})] when the child never binds its port: two probes
    500 ms apart, then the start-timeout; the Status Record has been written. *)
Example start_1000_never_up :
  exists w' : world,
    start never_up 1 timeout_1000 fresh = Done (Rejected start_timeout) w'
    /\ w_trace w' =
         [ fs_openSync (VStr "logs/emulator.log") "a";
           child_spawn "node"
             [ VStr "."; VStr "--host"; VStr "localhost"; VStr "--port"; VNum (Fin 8008);
               VStr "--projectId"; VStr "demo"; VStr "--timeout"; VNum (Fin 1000);
               VStr "--verbose"; VUndef; VStr "--useMocks"; VUndef;
               VStr "--logFile"; VStr "logs/emulator.log" ];
           child_unref;
           net_connect (VNum (Fin 8008)) (VStr "localhost") (Some refused);
           setTimeout (Fin 500);
           net_connect (VNum (Fin 8008)) (VStr "localhost") (Some refused) ]
    /\ w_status w' !!! "pid" = VNum (Fin 4242).
Proof. eexists. split; [vm_compute; reflexivity |]. split; vm_compute; reflexivity. Qed.

(** [start({timeout: 1200})]: the counter goes 2.4, 1.4, 0.4 (as the doubles
    next to them) and is used up by the third decrement; [start] rejects at
    the third probe. *)
Example start_1200_never_up :
  expires_after {[ "timeout" := VNum (Fin 1200) ]} 2
  /\ exists w' : world,
       start never_up 2 {[ "timeout" := VNum (Fin 1200) ]} fresh
       = Done (Rejected start_timeout) w'
       /\ w_attempts w' = 3%nat.
Proof.
  split.
  - split; [| vm_compute; reflexivity].
    intros k Hk. destruct k as [| [| [| k]]]; [lia | | | lia]; vm_compute; reflexivity.
  - eexists. split; vm_compute; reflexivity.
Qed.

(** A counter of 2e16 is not changed by [i--]: the double nearest to
    2e16 - 1 is 2e16. *)
Lemma countdown_1e19 (k : nat) : countdown timeout_1e19 k = count 20000000000000000.
Proof.
  induction k as [| k IH]; [vm_compute; reflexivity |].
  rewrite countdown_S, IH. vm_compute. reflexivity.
Qed.

(** C1, the inputs on which the claim fails: [start({timeout: Infinity})],
    [start({})] and [start({timeout: 1e19})], when the child is spawned and
    every probe fails.  The counter is +Infinity, respectively NaN and 2e16,
    the decrement leaves it as it is, and [start] is pending after any number
    of rounds; it never rejects. *)
Lemma start_never_times_out_on_some_timeouts :
  (forall k port host, connect never_up k port host <> None)
  /\ (forall fuel,
        start never_up fuel timeout_infinite fresh =
          Pending (VNum PInf)
            (rounds never_up (S fuel) timeout_infinite
               (launched never_up timeout_infinite (VStr "logs/emulator.log")
                  (VNum (Fin 4242)) fresh)))
  /\ ~ start_times_out_when_down never_up timeout_infinite fresh
  /\ (forall fuel,
        start never_up fuel ∅ fresh =
          Pending (VNum NaN)
            (rounds never_up (S fuel) ∅
               (launched never_up ∅ (VStr "logs/emulator.log") (VNum (Fin 4242)) fresh)))
  /\ ~ start_times_out_when_down never_up ∅ fresh
  /\ decremented (count 20000000000000000) = count 20000000000000000
  /\ (forall fuel,
        start never_up fuel timeout_1e19 fresh =
          Pending (count 20000000000000000)
            (rounds never_up (S fuel) timeout_1e19
               (launched never_up timeout_1e19 (VStr "logs/emulator.log")
                  (VNum (Fin 4242)) fresh)))
  /\ ~ start_times_out_when_down never_up timeout_1e19 fresh.
Proof.
  assert (Hdown : forall k port host, down (connect never_up k port host) = true)
    by reflexivity.
  assert (Hinf : forall fuel,
             start never_up fuel timeout_infinite fresh =
               Pending (VNum PInf)
                 (rounds never_up (S fuel) timeout_infinite
                    (launched never_up timeout_infinite (VStr "logs/emulator.log")
                       (VNum (Fin 4242)) fresh))).
  { intros fuel.
    rewrite (start_launches never_up fuel timeout_infinite fresh (VStr "logs/emulator.log")
               (VNum (Fin 3)) (VNum (Fin 4242))) by reflexivity.
    apply (poll_stuck never_up down start_timeout) with (c := PInf); auto. }
  assert (Hnan : forall fuel,
             start never_up fuel ∅ fresh =
               Pending (VNum NaN)
                 (rounds never_up (S fuel) ∅
                    (launched never_up ∅ (VStr "logs/emulator.log")
                       (VNum (Fin 4242)) fresh))).
  { intros fuel.
    rewrite (start_launches never_up fuel ∅ fresh (VStr "logs/emulator.log")
               (VNum (Fin 3)) (VNum (Fin 4242))) by reflexivity.
    apply (poll_stuck never_up down start_timeout) with (c := NaN); auto. }
  assert (Hbig : forall fuel,
             start never_up fuel timeout_1e19 fresh =
               Pending (count 20000000000000000)
                 (rounds never_up (S fuel) timeout_1e19
                    (launched never_up timeout_1e19 (VStr "logs/emulator.log")
                       (VNum (Fin 4242)) fresh))).
  { intros fuel.
    rewrite (start_launches never_up fuel timeout_1e19 fresh (VStr "logs/emulator.log")
               (VNum (Fin 3)) (VNum (Fin 4242))) by reflexivity.
    rewrite <- (countdown_1e19 (S fuel)).
    apply (poll_pending_initial never_up down start_timeout Hdown timeout_1e19 fuel VUndef);
      [reflexivity |].
    intros k Hk. rewrite countdown_1e19. reflexivity. }
  split; [exact never_up_is_down |].
  split; [exact Hinf |].
  split.
  { intros Hclaim. destruct (Hclaim never_up_is_down) as (fuel & w' & Hrej).
    rewrite Hinf in Hrej. discriminate. }
  split; [exact Hnan |].
  split.
  { intros Hclaim. destruct (Hclaim never_up_is_down) as (fuel & w' & Hrej).
    rewrite Hnan in Hrej. discriminate. }
  split; [vm_compute; reflexivity |].
  split; [exact Hbig |].
  intros Hclaim. destruct (Hclaim never_up_is_down) as (fuel & w' & Hrej).
  rewrite Hbig in Hrej. discriminate.
Qed.

(** C5, the input on which the claim fails: [status({})] against a server that
    is up.  The report is RUNNING with the persisted record as metadata, and
    no request for [?env=true] (no request at all) has been made. *)
Lemma status_issues_no_request :
  probe_outcome stays_up ∅ running = None
  /\ (exists w' : world,
        status stays_up ∅ running =
          Done (Resolved {| state := RUNNING;
                            metadata := Some (w_status running);
                            error_of := None |}) w'
        /\ requests w' = [])
  /\ ~ status_fetches_environment stays_up ∅ running.
Proof.
  split; [reflexivity |].
  split; [eexists; split; vm_compute; reflexivity |].
  intros Hclaim. destruct (Hclaim eq_refl) as (rep & w' & o & Hrun & _ & Hin).
  vm_compute in Hrun. injection Hrun as _ Hw. subst w'.
  vm_compute in Hin. destruct Hin as [Hf | []]. discriminate.
Qed.

(** C8, the input on which the last sentence of the claim fails:
    [_waitForStart({timeout: 0})] when every probe fails ends at the first
    probe, with the start-timeout, although the timeout is not positive. *)
Lemma zero_timeout_poll_ends :
  (forall k port host, connect never_up k port host <> None)
  /\ to_number (timeout_0 !!! "timeout") = Fin 0
  /\ _waitForStart never_up 0 timeout_0 VUndef fresh =
       Done (Rejected start_timeout) (probed never_up timeout_0 fresh)
  /\ ~ poll_ends_only_with_positive_timeout never_up timeout_0 fresh.
Proof.
  split; [exact never_up_is_down |]. split; [reflexivity |].
  assert (Hrun : _waitForStart never_up 0 timeout_0 VUndef fresh =
                   Done (Rejected start_timeout) (probed never_up timeout_0 fresh))
    by (vm_compute; reflexivity).
  split; [exact Hrun |].
  intros Hclaim. destruct Hclaim as (t & Ht & Hpos); [eauto |].
  assert (Ht0 : to_number (timeout_0 !!! "timeout") = Fin 0) by reflexivity.
  rewrite Ht0 in Ht. injection Ht as <-. lra.
Qed.

(** [start] resolves at the first probe when the server is up, and times out
    at the second probe with a timeout of 1000 ms when it never is. *)
Lemma start_resolves_only_when_up_or_times_out_witness :
  (exists w' : world,
     start stays_up 0 ∅ fresh = Done (Resolved tt) w'
     /\ exists tr port host, w_trace w' = (tr ++ [net_connect port host None])%list)
  /\ start never_up 1 timeout_1000 fresh =
       Done (Rejected start_timeout)
         (probed never_up timeout_1000
            (rounds never_up 1 timeout_1000
               (launched never_up timeout_1000 (VStr "logs/emulator.log")
                  (VNum (Fin 4242)) fresh))).
Proof.
  split.
  - eexists. split; [vm_compute; reflexivity |].
    apply (proj1 (start_resolves_only_when_up_or_times_out stays_up ∅ fresh) 0%nat).
    vm_compute. reflexivity.
  - assert (Hlog : assertLogsPath never_up (getSetting never_up "logFile" timeout_1000)
                   = inr (VStr "logs/emulator.log")) by reflexivity.
    assert (Hopen : openSync never_up (VStr "logs/emulator.log") "a" = inr (VNum (Fin 3)))
      by reflexivity.
    assert (Hspawn : spawn never_up "node"
                       (fst (child_args never_up timeout_1000 (VStr "logs/emulator.log")))
                     = inr (VNum (Fin 4242))) by reflexivity.
    assert (Hlive : spawn_error never_up "node"
                      (fst (child_args never_up timeout_1000 (VStr "logs/emulator.log")))
                    = None) by reflexivity.
    assert (Ht : to_number (timeout_1000 !!! "timeout") = Fin 1000) by reflexivity.
    assert (Hm : (1000 == 500 * inject_Z 2)%Q) by reflexivity.
    assert (Hrange : (1 <= 2 <= 2 ^ 53)%Z) by lia.
    destruct (start_resolves_only_when_up_or_times_out never_up timeout_1000 fresh)
      as (_ & Hpoll & Hwhole).
    destruct (Hwhole 1000%Q 2%Z Ht Hm Hrange) as (_ & _ & Hexpires & _).
    change (rounds_allowed 2) with 1%nat in Hexpires.
    pose proof (Hpoll (VStr "logs/emulator.log") (VNum (Fin 3)) (VNum (Fin 4242))
                  Hlog Hopen Hspawn Hlive never_up_is_down) as Hlate.
    cbv zeta in Hlate. destruct Hlate as (Hcount & _).
    apply (proj1 (Hcount 1%nat Hexpires) 1%nat). lia.
Defined.

(** [stop] kills at once when the DELETE request fails, and after the
    stop-timeout when the server stays up for a timeout of 1000 ms. *)
Lemma stop_always_ends_with_kill_witness :
  stop never_up 0 ∅ running = Done (Resolved tt) (killed (shutdown_requested never_up ∅ running))
  /\ stop stays_up 1 timeout_1000 running =
       Done (Resolved tt)
         (killed (probed stays_up timeout_1000
                    (rounds stays_up 1 timeout_1000
                       (shutdown_requested stays_up timeout_1000 running)))).
Proof.
  split.
  - pose proof (stop_always_ends_with_kill never_up 0 ∅ running) as Hstop.
    cbv zeta in Hstop. destruct Hstop as (_ & _ & Hfail & _).
    apply (Hfail refused). reflexivity.
  - pose proof (stop_always_ends_with_kill stays_up 1 timeout_1000 running) as Hstop.
    cbv zeta in Hstop. destruct Hstop as (_ & _ & _ & _ & _ & _ & _ & Hlate).
    assert (Hm : (1000 == 500 * inject_Z 2)%Q) by reflexivity.
    assert (Hrange : (- 2 ^ 53 < 2 <= 2 ^ 53)%Z) by lia.
    assert (Hgot : got stays_up (VStr (getEmulatorRootUri stays_up timeout_1000 running))
                     (shutdown_request stays_up timeout_1000 running) = inr ok_response)
      by reflexivity.
    assert (Ht : to_number (timeout_1000 !!! "timeout") = Fin 1000) by reflexivity.
    pose proof (whole_timeout_expires timeout_1000 1000%Q 2%Z Ht Hm Hrange) as Hexpires.
    change (rounds_allowed 2) with 1%nat in Hexpires.
    assert (Hfuel : (1 <= 1)%nat) by lia.
    exact (Hlate ok_response 1%nat Hgot stays_up_is_up Hexpires Hfuel).
Defined.

(** [start] on a system where the call of [spawn] throws EPERM. *)
Example start_when_spawn_throws :
  exists w' : world,
    start no_child 5 ∅ fresh = Done (Rejected (SystemError "EPERM")) w'
    /\ w_status w' = w_status fresh
    /\ w_attempts w' = w_attempts fresh
    /\ w_trace w' =
         (w_trace fresh ++ snd (child_args no_child ∅ (VStr "logs/emulator.log"))
          ++ [fs_openSync (VStr "logs/emulator.log") "a";
              child_spawn "node" (fst (child_args no_child ∅ (VStr "logs/emulator.log")))])%list.
Proof.
  apply (start_rejects_before_record_when_spawn_throws no_child 5 ∅ fresh
           (VStr "logs/emulator.log") (VNum (Fin 3)) (SystemError "EPERM"));
    reflexivity.
Qed.

(** C4, the input on which the code fails the claim: [start({})] on a host
    without [node].  The child [spawn] returns has no pid and emits ENOENT;
    [start] has written the Status Record to a store that was empty, has made
    no probe that completed, and its promise is not rejected: the process
    dies of the ENOENT event. *)
Lemma unrunnable_child_leaves_a_record_witness :
  start no_runtime 5 ∅ fresh =
    Crashed (SystemError "ENOENT")
      (launched no_runtime ∅ (VStr "logs/emulator.log") VUndef fresh)
  /\ w_status fresh = ∅
  /\ status_get "host" (launched no_runtime ∅ (VStr "logs/emulator.log") VUndef fresh)
     = VStr "localhost"
  /\ status_get "port" (launched no_runtime ∅ (VStr "logs/emulator.log") VUndef fresh)
     = VNum (Fin 8008)
  /\ status_get "logFile" (launched no_runtime ∅ (VStr "logs/emulator.log") VUndef fresh)
     = VStr "logs/emulator.log"
  /\ w_status (launched no_runtime ∅ (VStr "logs/emulator.log") VUndef fresh)
     <> w_status fresh.
Proof.
  assert (Hlog : assertLogsPath no_runtime (getSetting no_runtime "logFile" ∅)
                 = inr (VStr "logs/emulator.log")) by reflexivity.
  assert (Hopen : openSync no_runtime (VStr "logs/emulator.log") "a" = inr (VNum (Fin 3)))
    by reflexivity.
  assert (Hspawn : spawn no_runtime "node"
                     (fst (child_args no_runtime ∅ (VStr "logs/emulator.log")))
                   = inr VUndef) by reflexivity.
  assert (Hfail : spawn_error no_runtime "node"
                    (fst (child_args no_runtime ∅ (VStr "logs/emulator.log")))
                  = Some (SystemError "ENOENT")) by reflexivity.
  pose proof (unrunnable_child_leaves_a_record no_runtime 5 ∅ fresh
                (VStr "logs/emulator.log") (VNum (Fin 3)) VUndef (SystemError "ENOENT")
                Hlog Hopen Hspawn Hfail) as Hbug.
  cbv zeta in Hbug. destruct Hbug as (Hrun & _ & _ & Hhost & Hport & Hfile & Hnew & _).
  split; [exact Hrun |]. split; [reflexivity |]. split; [exact Hhost |].
  split; [exact Hport |]. split; [exact Hfile |].
  apply Hnew; [reflexivity | discriminate].
Defined.

(** [{inspect: true, debug: true}] on Node 4: no flag, one warning. *)
Lemma at_most_one_debugger_flag_witness :
  fst (child_args no_child inspect_and_debug (VStr "logs/emulator.log"))
  = base_args no_child inspect_and_debug (VStr "logs/emulator.log")
  /\ snd (child_args no_child inspect_and_debug (VStr "logs/emulator.log"))
     = [console_error "--inspect flag requires Node 6.3.0+"].
Proof.
  pose proof (at_most_one_debugger_flag no_child inspect_and_debug
                (VStr "logs/emulator.log")) as Hflags.
  cbv zeta in Hflags. destruct Hflags as (_ & _ & Hold & _).
  apply Hold; reflexivity.
Defined.

Lemma old_runtime_drops_inspect_and_debug_witness :
  child_args no_child inspect_and_debug (VStr "logs/emulator.log") =
    (base_args no_child inspect_and_debug (VStr "logs/emulator.log"),
     [console_error "--inspect flag requires Node 6.3.0+"]).
Proof.
  apply (old_runtime_drops_inspect_and_debug no_child inspect_and_debug
           (VStr "logs/emulator.log")); reflexivity.
Defined.



(** Without a timeout both polls are pending after eight rounds. *)
Lemma poll_never_ends_without_numeric_timeout_witness :
  isNaN ((∅ : dict) !!! "timeout") = true
  /\ _waitForStart never_up 7 ∅ VUndef fresh = Pending (VNum NaN) (rounds never_up 8 ∅ fresh)
  /\ _waitForStop stays_up 7 ∅ VUndef running = Pending (VNum NaN) (rounds stays_up 8 ∅ running).
Proof.
  assert (Hnan : isNaN ((∅ : dict) !!! "timeout") = true) by reflexivity.
  split; [exact Hnan |]. split.
  - apply (proj1 (poll_never_ends_without_numeric_timeout never_up ∅ fresh) Hnan).
    exact never_up_is_down.
  - apply (proj1 (poll_never_ends_without_numeric_timeout stays_up ∅ running) Hnan).
    exact stays_up_is_up.
Defined.

(** C9, the input on which the claim fails: [start({timeout: 0})] with a
    configured timeout of 3000 ms.  [getSetting] resolves the timeout to 3000,
    which is what the child is handed after [--timeout], but the poll of
    [start] reads [opts.timeout] itself: the falsy 0 is used as it is and
    [start] gives up at the first failed probe, whereas without the option
    the poll would go on. *)
Lemma zero_timeout_is_selected_by_start :
  truthy (VNum (Fin 0)) = false
  /\ truthy (config_get never_up "timeout") = true
  /\ getSetting never_up "timeout" (<["timeout" := VNum (Fin 0)]> ∅) = VNum (Fin 3000)
  /\ base_args never_up (<["timeout" := VNum (Fin 0)]> ∅) (VStr "logs/emulator.log") !! 8%nat
     = Some (VNum (Fin 3000))
  /\ start never_up 1 (<["timeout" := VNum (Fin 0)]> ∅) fresh =
       Done (Rejected start_timeout)
         (probed never_up (<["timeout" := VNum (Fin 0)]> ∅)
            (launched never_up (<["timeout" := VNum (Fin 0)]> ∅) (VStr "logs/emulator.log")
               (VNum (Fin 4242)) fresh))
  /\ start never_up 1 (delete "timeout" ∅) fresh =
       Pending (VNum NaN)
         (rounds never_up 2 (delete "timeout" ∅)
            (launched never_up (delete "timeout" ∅) (VStr "logs/emulator.log")
               (VNum (Fin 4242)) fresh))
  /\ ~ start_ignores_falsy_option never_up "timeout" (VNum (Fin 0)) ∅ fresh.
Proof.
  assert (Hzero : start never_up 1 (<["timeout" := VNum (Fin 0)]> ∅) fresh =
                    Done (Rejected start_timeout)
                      (probed never_up (<["timeout" := VNum (Fin 0)]> ∅)
                         (launched never_up (<["timeout" := VNum (Fin 0)]> ∅)
                            (VStr "logs/emulator.log") (VNum (Fin 4242)) fresh)))
    by (vm_compute; reflexivity).
  assert (Habsent : start never_up 1 (delete "timeout" ∅) fresh =
                      Pending (VNum NaN)
                        (rounds never_up 2 (delete "timeout" ∅)
                           (launched never_up (delete "timeout" ∅) (VStr "logs/emulator.log")
                              (VNum (Fin 4242)) fresh)))
    by (vm_compute; reflexivity).
  split; [reflexivity |]. split; [reflexivity |]. split; [reflexivity |].
  split; [reflexivity |]. split; [exact Hzero |]. split; [exact Habsent |].
  intros Hclaim. specialize (Hclaim eq_refl eq_refl 1%nat).
  rewrite Hzero, Habsent in Hclaim. discriminate.
Qed.

(** [{port: 0}] selects the configured port 8008. *)
Lemma falsy_option_is_absent_witness :
  truthy (VNum (Fin 0)) = false
  /\ getSetting never_up "port" (<["port" := VNum (Fin 0)]> ∅) = VNum (Fin 8008)
  /\ getEmulatorRootUri never_up (<["port" := VNum (Fin 0)]> ∅) running
     = getEmulatorRootUri never_up (delete "port" ∅) running.
Proof.
  assert (Hzero : truthy (VNum (Fin 0)) = false) by reflexivity.
  split; [exact Hzero |].
  pose proof (falsy_option_is_absent never_up "port" (VNum (Fin 0)) ∅ running Hzero)
    as (Hget & _ & _ & _ & Huri & _).
  split; [exact Hget | exact Huri].
Defined.

(** *** Further runs *)

(** With a timeout of 1000 ms the start poll gives up at the second probe: a
    child that binds its port just before the third is reported as not
    started, and its Status Record stays behind. *)
Example start_misses_a_late_child :
  exists w' : world,
    start up_at_third 5 timeout_1000 fresh = Done (Rejected start_timeout) w'
    /\ w_attempts w' = 2%nat
    /\ w_status w' !!! "pid" = VNum (Fin 4242).
Proof. eexists. split; [vm_compute; reflexivity |]. split; vm_compute; reflexivity. Qed.

(** [list] against a server that is up. *)
Lemma action_sends_one_normalised_request_witness :
  exists req : dict,
    _action stays_up (inl "http://localhost:8008/function/") fresh =
      Done (Resolved (VStr "ok"))
        (emit (got_request (VStr "http://localhost:8008/function/") req) fresh)
    /\ req !!! "method" = VStr "GET"
    /\ req !!! "json" = VBool true
    /\ req !! "raw" = None.
Proof.
  pose (req := request_of (inl "http://localhost:8008/function/") (VBool true)).
  assert (Hrun : _action stays_up (inl "http://localhost:8008/function/") fresh =
                   Done (Resolved (VStr "ok"))
                     (emit (got_request (VStr "http://localhost:8008/function/") req) fresh))
    by (vm_compute; reflexivity).
  destruct (action_sends_one_normalised_request stays_up _ _ _ _ Hrun)
    as (req' & Htrace & _ & _ & Hraw & Hmethod & Hjson & _).
  cbn [emit w_trace fresh app] in Htrace. injection Htrace as _ Hreq. subst req'.
  exists req. split; [exact Hrun |]. split; [exact Hmethod |].
  split; [apply Hjson; reflexivity | exact Hraw].
Defined.

(** [call] with the empty string for a body. *)
Lemma bodyless_call_sends_json_true_witness :
  truthy (VStr "") = false
  /\ outgoing_json (call stays_up "hello" (VStr "") ∅ running) = Some (VBool true).
Proof.
  assert (Hempty : truthy (VStr "") = false) by reflexivity.
  split; [exact Hempty |].
  apply (bodyless_call_sends_json_true stays_up "hello" (VStr "") ∅ running Hempty).
Defined.

(** A timeout of 1000 ms allows two probes, here against a child that comes up
    too late. *)
Lemma expiring_counter_bounds_the_polls_witness :
  expires_after timeout_1000 1
  /\ exists p w',
       _waitForStart up_at_third 1 timeout_1000 VUndef fresh = Done p w'
       /\ (w_attempts w' <= w_attempts fresh + 1 + 1)%nat
       /\ w_status w' = w_status fresh.
Proof.
  assert (Ht : to_number (timeout_1000 !!! "timeout") = Fin 1000) by reflexivity.
  assert (Hm : (1000 == 500 * inject_Z 2)%Q) by reflexivity.
  assert (Hrange : (- 2 ^ 53 < 2 <= 2 ^ 53)%Z) by lia.
  assert (Hfuel : (1 <= 1)%nat) by lia.
  destruct (expiring_counter_bounds_the_polls up_at_third timeout_1000 1 1 fresh)
    as (Hbound & Hwhole).
  pose proof (Hwhole 1000%Q 2%Z Ht Hm Hrange) as Hexpires.
  change (rounds_allowed 2) with 1%nat in Hexpires.
  split; [exact Hexpires |].
  apply (proj1 (Hbound Hexpires Hfuel)).
Defined.

(** With a timeout of 3000 ms the child that binds its port before the third
    probe is found. *)
Lemma poll_resolves_at_first_awaited_probe_witness :
  _waitForStart up_at_third 2 timeout_3000 VUndef fresh =
    Done (Resolved tt) (probed up_at_third timeout_3000 (rounds up_at_third 2 timeout_3000 fresh)).
Proof.
  assert (Ht : to_number (timeout_3000 !!! "timeout") = Fin 3000) by reflexivity.
  assert (Hm : (3000 == 500 * inject_Z 6)%Q) by reflexivity.
  assert (Hrange : (Z.of_nat 2 < 6 <= 2 ^ 53)%Z) by lia.
  assert (Hfuel : (2 <= 2)%nat) by lia.
  assert (Hbefore : forall j, (j < 2)%nat -> nth_probe up_at_third timeout_3000 fresh j <> None).
  { intros j Hj. destruct j as [| [| j]]; [discriminate | discriminate | lia]. }
  assert (Hat : nth_probe up_at_third timeout_3000 fresh 2 = None) by reflexivity.
  destruct (poll_resolves_at_first_awaited_probe up_at_third timeout_3000 2 2 fresh)
    as (Hresolves & Hwhole).
  exact (proj1 (Hresolves (Hwhole 3000%Q 6%Z Ht Hm Hrange) Hfuel) Hbefore Hat).
Defined.

Lemma start_keeps_its_record_witness :
  match start never_up 3 timeout_1000 fresh with
  | Threw _ _ => False
  | Done _ w' | Pending _ w' | Crashed _ w' =>
      status_get "pid" w' = VNum (Fin 4242)
      /\ getEmulatorRootUri never_up ∅ w' =
           "http://" ++ to_string (getSetting never_up "host" timeout_1000)
           ++ ":" ++ to_string (getSetting never_up "port" timeout_1000)
  end.
Proof.
  pose proof (start_keeps_its_record never_up 3 timeout_1000 fresh
                (VStr "logs/emulator.log") (VNum (Fin 3)) (VNum (Fin 4242))
                eq_refl eq_refl eq_refl) as Hrec.
  destruct (start never_up 3 timeout_1000 fresh) as [e w' | p w' | i w' | e w'];
    [exact Hrec | | |]; split; apply Hrec.
Defined.

Lemma start_polls_the_address_given_to_the_child_witness :
  base_args never_up timeout_1000 (VStr "logs/emulator.log") !! 2%nat = Some (VStr "localhost")
  /\ base_args never_up timeout_1000 (VStr "logs/emulator.log") !! 4%nat
     = Some (VNum (Fin 8008)).
Proof.
  pose proof (start_polls_the_address_given_to_the_child never_up 3 timeout_1000 fresh
                (VStr "logs/emulator.log") (VNum (Fin 3)) (VNum (Fin 4242))
                eq_refl eq_refl eq_refl) as (_ & Hhost & _ & Hport & _).
  split; [exact Hhost | exact Hport].
Defined.

Lemma kill_signals_the_spawned_child_witness :
  match start never_up 3 timeout_1000 fresh with
  | Threw _ _ => False
  | Done _ w' | Pending _ w' | Crashed _ w' =>
      exists w'' : world,
        kill never_up ∅ w' = Done (Resolved tt) w''
        /\ w_trace w'' = (w_trace w' ++ [process_kill (VNum (Fin 4242))])%list
        /\ w_status w'' = ∅
  end.
Proof.
  apply (kill_signals_the_spawned_child never_up 3 timeout_1000 ∅ fresh
           (VStr "logs/emulator.log") (VNum (Fin 3)) (VNum (Fin 4242)));
    reflexivity.
Defined.

Lemma status_after_start_is_running_witness :
  exists (w' : world) (md : dict) (w'' : world),
    start stays_up 0 ∅ fresh = Done (Resolved tt) w'
    /\ status stays_up ∅ w' =
         Done (Resolved {| state := RUNNING; metadata := Some md; error_of := None |}) w''
    /\ md !!! "pid" = VNum (Fin 4242)
    /\ md !!! "port" = getSetting stays_up "port" ∅.
Proof.
  pose (w' := probed stays_up ∅
                (launched stays_up ∅ (VStr "logs/emulator.log") (VNum (Fin 4242)) fresh)).
  assert (Hrun : start stays_up 0 ∅ fresh = Done (Resolved tt) w')
    by (vm_compute; reflexivity).
  assert (Hlog : assertLogsPath stays_up (getSetting stays_up "logFile" ∅)
                 = inr (VStr "logs/emulator.log")) by reflexivity.
  assert (Hopen : openSync stays_up (VStr "logs/emulator.log") "a" = inr (VNum (Fin 3)))
    by reflexivity.
  assert (Hspawn : spawn stays_up "node"
                     (fst (child_args stays_up ∅ (VStr "logs/emulator.log")))
                   = inr (VNum (Fin 4242))) by reflexivity.
  assert (Hprobe : probe_outcome stays_up ∅ w' = None) by reflexivity.
  destruct (status_after_start_is_running stays_up 0 ∅ fresh w'
              (VStr "logs/emulator.log") (VNum (Fin 3)) (VNum (Fin 4242))
              Hlog Hopen Hspawn Hrun Hprobe)
    as (md & w'' & Hstatus & Hpid & _ & Hport & _).
  exists w', md, w''. repeat split; assumption.
Defined.

(** Node 4.4.7. *)
Lemma major_reads_first_component_witness :
  major no_child = parseInt "4" /\ geb (major no_child) (Fin 6) = false.
Proof.
  assert (Hmajor : major no_child = parseInt "4").
  { apply (proj1 (major_reads_first_component no_child "v" "4" "4.7" eq_refl)).
    reflexivity. }
  split; [exact Hmajor | rewrite Hmajor; reflexivity].
Defined.

(** A server recorded on port 8010 is stopped: a later command without
    options addresses the configured port 8008. *)
Lemma after_stop_the_configuration_decides_witness :
  exists w' : world,
    stop stays_up 1 timeout_1000 running = Done (Resolved tt) w'
    /\ getEmulatorRootUri stays_up ∅ running = "http://localhost:8010"
    /\ getEmulatorRootUri stays_up ∅ w' =
         "http://" ++ to_string (or ((∅ : dict) !!! "host") (config_get stays_up "host"))
         ++ ":" ++ to_string (or ((∅ : dict) !!! "port") (config_get stays_up "port")).
Proof.
  pose (w' := killed (probed stays_up timeout_1000
                        (rounds stays_up 1 timeout_1000
                           (shutdown_requested stays_up timeout_1000 running)))).
  assert (Hrun : stop stays_up 1 timeout_1000 running = Done (Resolved tt) w')
    by (vm_compute; reflexivity).
  exists w'. split; [exact Hrun |]. split; [reflexivity |].
  apply (proj2 (after_stop_the_configuration_decides stays_up 1 timeout_1000 running
                  (Resolved tt) w' Hrun)).
Defined.

(** [{debug: true}] without any configuration. *)
Lemma debug_flag_prints_the_resolved_port_witness :
  fst (child_args unconfigured debug_only (VStr "emulator.log"))
  = VStr "--debug=undefined" :: base_args unconfigured debug_only (VStr "emulator.log").
Proof.
  assert (Hi : requested (getSetting unconfigured "inspect" debug_only) = false)
    by reflexivity.
  assert (Hd : requested (getSetting unconfigured "debug" debug_only) = true)
    by reflexivity.
  apply (proj2 (debug_flag_prints_the_resolved_port unconfigured debug_only
                  (VStr "emulator.log") Hi Hd)); reflexivity.
Defined.

End Runs.
